(** * raylib-go: [SetVertexAttributes] and [glType] (raylib/rlgl_utils.go)

    A shallow embedding of the vertex-attribute binding helper.  The helper
    reads the layout of the vertex type through package [reflect] and issues
    [SetVertexAttribute] / [EnableVertexAttribute] calls, or panics.

    - Go's [int] and [uintptr] are 64 bits wide (amd64, arm64); lengths,
      sizes and offsets are kept as unbounded [N] / [Z] and every narrowing
      conversion [int32(x)] of the source is written out as [int32].
    - A [reflect.Type] is a type descriptor ([reflect.rtype]) that carries
      what the run-time descriptor carries: name, kind, size, and for a
      struct its fields with their offsets.
    - The GPU layer is a log of calls; a panic ends the run and keeps the log. *)

From Stdlib Require Import ZArith NArith String List Bool Lia.
From Stdlib Require Import Permutation.
Import ListNotations.
Open Scope Z_scope.

(** ** Machine integers *)

(** The conversion [int32(x)] of an integer value: the low 32 bits, read as a
    two's complement number. *)
Definition int32 (x : Z) : Z := (x + 2 ^ 31) mod 2 ^ 32 - 2 ^ 31.

(** Multiplication of two [int32] values. *)
Definition mul32 (a b : Z) : Z := int32 (a * b).

(** ** Package reflect, as far as the helper uses it *)

Module reflect.

Inductive Kind : Set :=
| Invalid | Bool | Int | Int8 | Int16 | Int32 | Int64
| Uint | Uint8 | Uint16 | Uint32 | Uint64 | Uintptr
| Float32 | Float64 | Complex64 | Complex128
| Array | Chan | Func | Interface | Map | Pointer | Slice | String | Struct
| UnsafePointer.

Scheme Equality for Kind.

(** One field of a struct type: [reflect.StructField] with the members the
    helper and the lookup by name read ([Typ] is Go's [Type]).  [Offset] is
    the offset of the field within the struct that declares it;
    [Anonymous] says that the field is embedded. *)
Record StructField_ (T : Type) : Type := mkField
  { Name : string; Typ : T; Offset : N; Anonymous : bool }.

Arguments mkField {T} _ _ _ _.
Arguments Name {T} _.
Arguments Typ {T} _.
Arguments Offset {T} _.
Arguments Anonymous {T} _.

(** A field that is not embedded. *)
Abbreviation mkStructField n t o := (mkField n t o false).

(** A type descriptor.  [name] is the name of a defined type (package
    qualified) and the empty string for a type literal; for a type that is
    neither an array nor a struct it is the type's [String()].  Two
    [reflect.Type] values are equal exactly when the types are identical,
    which here is equality of descriptors. *)
#[warnings="-register-all"] Inductive rtype : Type :=
| Opaque (name : string) (kind : Kind) (size : N)
| ArrayOf (name : string) (len : N) (elem : rtype) (size : N)
| StructOf (name : string) (fields : list (StructField_ rtype)) (size : N).

Abbreviation StructField := (StructField_ rtype).

(** The comparison [t1 == t2] of two [reflect.Type] values. *)
Fixpoint rtype_eqb (a b : rtype) {struct a} : bool :=
  match a, b with
  | Opaque n k s, Opaque n' k' s' =>
      String.eqb n n' && Kind_beq k k' && N.eqb s s'
  | ArrayOf n l e s, ArrayOf n' l' e' s' =>
      String.eqb n n' && N.eqb l l' && rtype_eqb e e' && N.eqb s s'
  | StructOf n fs s, StructOf n' fs' s' =>
      String.eqb n n' && N.eqb s s' &&
      (fix fields_eqb (xs ys : list StructField) {struct xs} : bool :=
         match xs, ys with
         | [], [] => true
         | x :: xs', y :: ys' =>
             String.eqb (Name x) (Name y) && rtype_eqb (Typ x) (Typ y)
             && N.eqb (Offset x) (Offset y)
             && Bool.eqb (Anonymous x) (Anonymous y) && fields_eqb xs' ys'
         | _, _ => false
         end) fs fs'
  | _, _ => false
  end.

(** The methods of [reflect.Type].  A method that package reflect makes
    panic (wrong kind, index out of range) returns [None]. *)
Module Type_.

Definition Kind (t : rtype) : reflect.Kind :=
  match t with
  | Opaque _ k _ => k
  | ArrayOf _ _ _ _ => Array
  | StructOf _ _ _ => Struct
  end.

Definition Size (t : rtype) : N :=
  match t with
  | Opaque _ _ s => s
  | ArrayOf _ _ _ s => s
  | StructOf _ _ s => s
  end.

Definition Elem (t : rtype) : option rtype :=
  match t with
  | ArrayOf _ _ e _ => Some e
  | _ => None
  end.

Definition Len (t : rtype) : option Z :=
  match t with
  | ArrayOf _ l _ _ => Some (Z.of_N l)
  | _ => None
  end.

Definition NumField (t : rtype) : option Z :=
  match t with
  | StructOf _ fs _ => Some (Z.of_nat (length fs))
  | _ => None
  end.

Definition Field (t : rtype) (i : Z) : option StructField :=
  match t with
  | StructOf _ fs _ => if i <? 0 then None else nth_error fs (Z.to_nat i)
  | _ => None
  end.

(** The fields of a struct type. *)
Definition fields (t : rtype) : list StructField :=
  match t with
  | StructOf _ fs _ => fs
  | _ => []
  end.

(** How deep struct types are nested in a type. *)
Fixpoint depth (t : rtype) : nat :=
  match t with
  | StructOf _ fs _ =>
      S (fold_right (fun f m => Nat.max (depth (Typ f)) m) 0%nat fs)
  | _ => 0%nat
  end.

(** An embedded field whose fields are promoted: its type is a struct.
    (An embedded pointer is a descriptor of kind [Pointer] without its
    element here, so nothing is promoted through a pointer.) *)
Definition embedsStruct (f : StructField) : bool :=
  Anonymous f && Kind_beq (Kind (Typ f)) Struct.

(** The work queue of [FieldByNameFunc]: the struct types of one depth
    level, each with the mark that it was reached more than once
    ([count[t] > 1]). *)
Definition Queue : Type := list (rtype * bool).

Definition queued (t : rtype) (q : Queue) : bool :=
  existsb (fun e => rtype_eqb (fst e) t) q.

(** [nextCount[styp] = 2] for a type that is queued already; else the type
    is appended, marked if the struct it is embedded in was. *)
Definition enqueue (t : rtype) (multi : bool) (q : Queue) : Queue :=
  if queued t q
  then map (fun e => if rtype_eqb (fst e) t then (fst e, true) else e) q
  else q ++ [(t, multi)].

(** The loop over the fields of one struct of the current level.  [None]:
    the name appeared more than once at this level, and the search ends
    without a result. *)
Fixpoint scanFields (name : string) (multi : bool) (fs : list StructField)
  (result : option StructField) (next : Queue)
  : option (option StructField * Queue) :=
  match fs with
  | [] => Some (result, next)
  | f :: rest =>
      if String.eqb (Name f) name then
        match result with
        | Some _ => None
        | None => if multi then None
                  else scanFields name multi rest (Some f) next
        end
      else
        match result with
        | Some _ => scanFields name multi rest result next
        | None =>
            if embedsStruct f
            then scanFields name multi rest result
                   (enqueue (Typ f) multi next)
            else scanFields name multi rest result next
        end
  end.

(** The loop over the structs of the current level; a struct that was
    visited at a higher level is passed over. *)
Fixpoint scanLevel (name : string) (current : Queue) (visited : list rtype)
  (result : option StructField) (next : Queue)
  : option (option StructField * Queue * list rtype) :=
  match current with
  | [] => Some (result, next, visited)
  | (t, multi) :: rest =>
      if existsb (rtype_eqb t) visited
      then scanLevel name rest visited result next
      else
        match scanFields name multi (fields t) result next with
        | None => None
        | Some (result', next') =>
            scanLevel name rest (t :: visited) result' next'
        end
  end.

(** The breadth-first search, one depth level for each unit of [fuel]. *)
Fixpoint search (fuel : nat) (name : string) (current : Queue)
  (visited : list rtype) : option StructField :=
  match fuel with
  | O => None
  | S fuel' =>
      match current with
      | [] => None
      | _ =>
          match scanLevel name current visited None [] with
          | None => None
          | Some (Some f, _, _) => Some f
          | Some (None, next, visited') => search fuel' name next visited'
          end
      end
  end.

(** [FieldByNameFunc] with the match [s == name]: the field of that name
    at the least depth of embedding, if it is the only one at that depth.
    The levels of a type are fewer than [S (depth t)]. *)
Definition FieldByNameFunc (t : rtype) (name : string)
  : option StructField :=
  search (S (depth t)) name [(t, false)] [].

(** [FieldByName].  The outer option is the panic on a type that is no
    struct, the inner one the [ok] result.  A field of the struct itself is
    found first; else, if the struct has an embedded field, the search goes
    through the embedded structs, and the field it finds is the
    [StructField] of the struct that declares it, its [Offset] within that
    struct. *)
Definition FieldByName (t : rtype) (name : string)
  : option (option StructField) :=
  match t with
  | StructOf _ fs _ =>
      Some (if String.eqb name "" then None
            else
              match find (fun f => String.eqb (Name f) name) fs with
              | Some f => Some f
              | None =>
                  if existsb Anonymous fs then FieldByNameFunc t name
                  else None
              end)
  | _ => None
  end.

End Type_.

End reflect.

Import reflect.

(** ** The GPU layer *)

(** The two rlgl entry points the helper calls, as log entries.
    [index] is a [uint32]; the other numbers are [int32]. *)
Inductive GLCall : Type :=
| SetVertexAttribute (index : Z) (compSize : Z) (type : Z)
    (normalized : bool) (stride : Z) (offset : Z)
| EnableVertexAttribute (index : Z).

(** The rlgl data type constants [Byte], [UnsignedByte], ... that [glType]
    returns.  They are declared elsewhere in package rl, not in
    rlgl_utils.go, so the development is parametric in their values. *)
Class DataTypes : Type := mkDataTypes
  { Byte : Z; UnsignedByte : Z; Short : Z; UnsignedShort : Z;
    Int : Z; UnsignedInt : Z; Float : Z; Double : Z }.

(** The values OpenGL gives these constants; used to run the model. *)
Definition OpenGL : DataTypes :=
  {| Byte := 0x1400; UnsignedByte := 0x1401; Short := 0x1402;
     UnsignedShort := 0x1403; Int := 0x1404; UnsignedInt := 0x1405;
     Float := 0x1406; Double := 0x140A |}.

(** ** Panics *)

(** One constructor for each [panic] statement of [SetVertexAttributes],
    with the values its message prints, and one for a panic raised inside
    package reflect. *)
Inductive Panic : Type :=
| UnsupportedVertexType
    (* "Vertex array is using unsupported types. ..." *)
| ArrayBackingNotPrimitive (elem : rtype)
    (* "Backing type for array is not one of the supported primitives" *)
| NoSuchField (t : rtype) (field : string)
    (* "struct %s does not have a field of the name %s" *)
| FieldArrayNotPrimitive (elemKind : Kind) (field : string)
    (* "Only array of primitive types is supported. ..." *)
| ChildStructEmpty (child : rtype) (field : string)
    (* "Child struct %s is empty in field %s" *)
| ChildStructNotPrimitive (field : string) (prevType : rtype)
    (* "child struct must have a primitive type for every field in %s %s" *)
| ChildStructNotSameType (field : string) (child : rtype)
    (* "child struct must have the same type for every field in %s %s" *)
| ReflectPanic.

(** ** Computations that log GPU calls and may panic *)

Inductive Outcome (A : Type) : Type :=
| Returned (a : A)
| Panicked (p : Panic).

Arguments Returned {A} a.
Arguments Panicked {A} p.

Definition GL (A : Type) : Type := (list GLCall * Outcome A)%type.

Definition ret {A} (a : A) : GL A := ([], Returned a).

Definition bind {A B} (m : GL A) (f : A -> GL B) : GL B :=
  match m with
  | (w, Returned a) => let (w', r) := f a in (w ++ w', r)
  | (w, Panicked p) => (w, Panicked p)
  end.

Definition call (c : GLCall) : GL unit := ([c], Returned tt).

Definition panic {A} (p : Panic) : GL A := ([], Panicked p).

(** A call into package reflect. *)
Definition reflected {A} (r : option A) : GL A :=
  match r with
  | Some a => ret a
  | None => panic ReflectPanic
  end.

Declare Scope gl_scope.
Delimit Scope gl_scope with gl.
Notation "x <- m ;; k" := (bind m (fun x => k))
  (at level 61, m at next level, right associativity) : gl_scope.
Notation "m ;; k" := (bind m (fun _ => k))
  (at level 61, right associativity) : gl_scope.
Open Scope gl_scope.

(** [for i, x := range xs { body }], the index starting at [i]. *)
Fixpoint forRange {A} (body : Z -> A -> GL unit) (i : Z) (xs : list A)
  : GL unit :=
  match xs with
  | [] => ret tt
  | x :: rest => body i x ;; forRange body (i + 1) rest
  end.

(** The integers [lo], [lo + 1], ..., [hi - 1]. *)
Definition upto (lo hi : Z) : list Z :=
  map (fun k => lo + Z.of_nat k) (seq 0 (Z.to_nat (hi - lo))).

(** [for i := lo; i < hi; i++ { body }]. *)
Definition forLoop (lo hi : Z) (body : Z -> GL unit) : GL unit :=
  forRange (fun _ i => body i) 0 (upto lo hi).

(** ** The helper *)

Record VertexAttributesConfig : Type := mkConfig
  { Field : string;      (* name of the field in the struct *)
    Attribute : Z;       (* OpenGL attribute index, a uint32 *)
    Normalized : bool }.

Section Helper.

Context {dt : DataTypes}.

Definition glType (k : Kind) : Z * bool :=
  match k with
  | Int8 => (Byte, true)
  | Uint8 => (UnsignedByte, true)
  | Int16 => (Short, true)
  | Uint16 => (UnsignedShort, true)
  | Int32 => (Int, true)
  | Uint32 => (UnsignedInt, true)
  | Float32 => (Float, true)
  | Float64 => (Double, true)
  | _ => (-1, false)
  end.

(** The two calls that define and enable one vertex attribute, as they
    follow each other at lines 59-60, 82-83, 98-99 and 125-126. *)
Definition define (attr : VertexAttributesConfig)
  (components attrType stride offset : Z) : GL unit :=
  call (SetVertexAttribute (Attribute attr) components attrType
          (Normalized attr) stride offset) ;;
  call (EnableVertexAttribute (Attribute attr)).

(** [case reflect.Array] (lines 45-61): a slice of arrays. *)
Definition arrayBacked (t : rtype) (stride : Z)
  (attributes : list VertexAttributesConfig) : GL unit :=
  e <- reflected (Type_.Elem t) ;;
  let arrayKind := Type_.Kind e in
  let '(attrType, isPrimitive) := glType arrayKind in
  if negb isPrimitive then panic (ArrayBackingNotPrimitive e)
  else
    len <- reflected (Type_.Len t) ;;
    let components := int32 len in
    let attributeSize := Type_.Size e in
    forRange (fun i attr =>
        let offset := mul32 (int32 i) (int32 (Z.of_N attributeSize)) in
        define attr components attrType stride offset)
      0 attributes.

(** The field of a struct that is itself a struct: [case reflect.Struct]
    of the inner switch (lines 103-126). *)
Definition childStruct (attr : VertexAttributesConfig) (field : StructField)
  (stride : Z) : GL unit :=
  n <- reflected (Type_.NumField (Typ field)) ;;
  let components := int32 n in
  if components =? 0 then panic (ChildStructEmpty (Typ field) (Field attr))
  else
    f0 <- reflected (Type_.Field (Typ field) 0) ;;
    let prevType := Typ f0 in
    let '(attrType, isPrimitiveType) := glType (Type_.Kind prevType) in
    let offset := int32 (Z.of_N (Offset field)) in
    if negb isPrimitiveType
    then panic (ChildStructNotPrimitive (Field attr) prevType)
    else
      forLoop 1 n (fun i =>
          fi <- reflected (Type_.Field (Typ field) i) ;;
          if negb (rtype_eqb prevType (Typ fi))
          then panic (ChildStructNotSameType (Field attr) (Typ field))
          else ret tt) ;;
      define attr components attrType stride offset.

(** The body of the loop of [case reflect.Struct] (lines 68-128): one
    binding entry. *)
Definition structEntry (t : rtype) (stride : Z)
  (attr : VertexAttributesConfig) : GL unit :=
  found <- reflected (Type_.FieldByName t (Field attr)) ;;
  match found with
  | None => panic (NoSuchField t (Field attr))
  | Some field =>
      let '(attrType, isPrimitiveType) := glType (Type_.Kind (Typ field)) in
      if isPrimitiveType then
        let components := 1 in
        let offset := int32 (Z.of_N (Offset field)) in
        define attr components attrType stride offset
      else
        match Type_.Kind (Typ field) with
        | Array =>
            e <- reflected (Type_.Elem (Typ field)) ;;
            let elemKind := Type_.Kind e in
            len <- reflected (Type_.Len (Typ field)) ;;
            let components := int32 len in
            let offset := int32 (Z.of_N (Offset field)) in
            let '(attrType, isPrimitiveType) := glType elemKind in
            if negb isPrimitiveType
            then panic (FieldArrayNotPrimitive elemKind (Field attr))
            else define attr components attrType stride offset
        | Struct => childStruct attr field stride
        | _ => ret tt
        end
  end.

(** [SetVertexAttributes[T any](vertices []T, attributes)].  [t] is the
    descriptor of the type argument [T]; [unsafe.Sizeof(vertices[0])] is its
    size. *)
Definition SetVertexAttributes {T : Type} (t : rtype) (vertices : list T)
  (attributes : list VertexAttributesConfig) : GL unit :=
  if (length vertices =? 0)%nat then ret tt
  else
    let stride := int32 (Z.of_N (Type_.Size t)) in
    let kind := Type_.Kind t in
    match kind with
    | Array => arrayBacked t stride attributes
    | Struct => forRange (fun _ attr => structEntry t stride attr) 0 attributes
    | _ => panic UnsupportedVertexType
    end.

End Helper.

(** ** Notions used in the statements *)

(** Every kind, in the order of their declaration. *)
Definition all_kinds : list Kind :=
  [Invalid; Bool; reflect.Int; Int8; Int16; Int32; Int64;
   Uint; Uint8; Uint16; Uint32; Uint64; Uintptr;
   Float32; Float64; Complex64; Complex128;
   Array; Chan; Func; Interface; Map; Pointer; Slice; String; Struct;
   UnsafePointer].

(** The kinds [glType] maps to a GPU data type. *)
Definition supported_kinds {dt : DataTypes} : list Kind :=
  filter (fun k => snd (glType k)) all_kinds.

(** The stride argument of a logged call, if it has one. *)
Definition strideOf (c : GLCall) : option Z :=
  match c with
  | SetVertexAttribute _ _ _ _ stride _ => Some stride
  | EnableVertexAttribute _ => None
  end.

(** A value that [int32(x)] leaves as it is. *)
Definition fits_int32 (x : Z) : Prop := - 2 ^ 31 <= x < 2 ^ 31.

(** The attribute index of a logged call. *)
Definition indexOf (c : GLCall) : Z :=
  match c with
  | SetVertexAttribute index _ _ _ _ _ => index
  | EnableVertexAttribute index => index
  end.

(** The normalized flag of a logged call, if it has one. *)
Definition normalizedOf (c : GLCall) : option bool :=
  match c with
  | SetVertexAttribute _ _ _ normalized _ _ => Some normalized
  | EnableVertexAttribute _ => None
  end.

(** The data type argument of a logged call, if it has one. *)
Definition typeOf (c : GLCall) : option Z :=
  match c with
  | SetVertexAttribute _ _ type _ _ _ => Some type
  | EnableVertexAttribute _ => None
  end.

(** A log made of set-pointer calls, each followed at once by the enable
    call for the same index, and of nothing else. *)
Fixpoint paired (log : list GLCall) : bool :=
  match log with
  | [] => true
  | SetVertexAttribute i _ _ _ _ _ :: EnableVertexAttribute j :: rest =>
      (i =? j) && paired rest
  | _ => false
  end.

(** A descriptor as the compiler makes them: kind [Array] belongs to array
    types only and kind [Struct] to struct types only, at every depth. *)
Fixpoint wellKinded (t : rtype) : bool :=
  match t with
  | Opaque _ k _ => negb (Kind_beq k Array) && negb (Kind_beq k Struct)
  | ArrayOf _ _ e _ => wellKinded e
  | StructOf _ fs _ => forallb (fun f => wellKinded (Typ f)) fs
  end.

(** Induction on a type descriptor that reaches the types of the fields. *)
Section rtype_induction.

Variable P : rtype -> Prop.
Hypothesis P_opaque : forall n k s, P (Opaque n k s).
Hypothesis P_array : forall n l e s, P e -> P (ArrayOf n l e s).
Hypothesis P_struct :
  forall n fs s, Forall (fun f => P (Typ f)) fs -> P (StructOf n fs s).

Fixpoint rtype_nested_ind (t : rtype) : P t :=
  match t with
  | Opaque n k s => P_opaque n k s
  | ArrayOf n l e s => P_array n l e s (rtype_nested_ind e)
  | StructOf n fs s =>
      P_struct n fs s
        ((fix all (l : list StructField) : Forall (fun f => P (Typ f)) l :=
            match l with
            | [] => Forall_nil _
            | f :: r => Forall_cons f (rtype_nested_ind (Typ f)) (all r)
            end) fs)
  end.

End rtype_induction.

(** ** Example types and bindings *)

Module Examples.

Local Open Scope string_scope.

Definition float32T : rtype := Opaque "float32" Float32 4.
Definition uint8T : rtype := Opaque "uint8" Uint8 1.
Definition int8T : rtype := Opaque "int8" Int8 1.
Definition intT : rtype := Opaque "int" reflect.Int 8.
Definition int64T : rtype := Opaque "int64" Int64 8.

(** [type MyFloat float32]: a defined type of kind [Float32]. *)
Definition MyFloat : rtype := Opaque "main.MyFloat" Float32 4.

Definition Vector2 : rtype :=
  StructOf "rl.Vector2"
    [mkStructField "X" float32T 0; mkStructField "Y" float32T 4] 8.

Definition Vector3 : rtype :=
  StructOf "rl.Vector3"
    [mkStructField "X" float32T 0; mkStructField "Y" float32T 4;
     mkStructField "Z" float32T 8] 12.

Definition Vector4 : rtype :=
  StructOf "rl.Vector4"
    [mkStructField "X" float32T 0; mkStructField "Y" float32T 4;
     mkStructField "Z" float32T 8; mkStructField "W" float32T 12] 16.

(** [TriangleVertex] of examples/others/rlgl_vertex_buffer. *)
Definition TriangleVertex : rtype :=
  StructOf "main.TriangleVertex"
    [mkStructField "Pos" Vector3 0; mkStructField "Tex" Vector2 12;
     mkStructField "Color" Vector4 20] 36.

Definition triangleVertexAttributesConfig : list VertexAttributesConfig :=
  [mkConfig "Pos" 0 false; mkConfig "Tex" 1 false; mkConfig "Color" 3 false].

(** [struct { A float32; B uint8 }]. *)
Definition ScalarVertex : rtype :=
  StructOf "main.ScalarVertex"
    [mkStructField "A" float32T 0; mkStructField "B" uint8T 4] 8.

(** [struct { Count int }]: a field of an unsupported primitive type. *)
Definition CountVertex : rtype :=
  StructOf "main.CountVertex" [mkStructField "Count" intT 0] 8.

(** [[2]float32]. *)
Definition Float2 : rtype := ArrayOf "" 2 float32T 8.

(** [[1 << 31]int8]: an array of 2 GiB. *)
Definition HugeArray : rtype := ArrayOf "" (2 ^ 31) int8T (2 ^ 31).

(** [struct { Pad [1 << 31]int8; P rl.Vector3 }]. *)
Definition PaddedVertex : rtype :=
  StructOf "main.PaddedVertex"
    [mkStructField "Pad" HugeArray 0; mkStructField "P" Vector3 (2 ^ 31)]
    (2 ^ 31 + 12).

(** [struct { P struct { X int64; Y float32 } }]. *)
Definition MixedChild : rtype :=
  StructOf "" [mkStructField "X" int64T 0; mkStructField "Y" float32T 8] 16.

Definition MixedVertex : rtype :=
  StructOf "main.MixedVertex" [mkStructField "P" MixedChild 0] 16.

(** [struct { P struct { X float32; Y MyFloat } }]. *)
Definition NamedChild : rtype :=
  StructOf "" [mkStructField "X" float32T 0; mkStructField "Y" MyFloat 4] 8.

Definition NamedVertex : rtype :=
  StructOf "main.NamedVertex" [mkStructField "P" NamedChild 0] 8.

(** [struct { P struct { X float32; Y uint8 } }]. *)
Definition HeteroChild : rtype :=
  StructOf "" [mkStructField "X" float32T 0; mkStructField "Y" uint8T 4] 8.

Definition HeteroVertex : rtype :=
  StructOf "main.HeteroVertex" [mkStructField "P" HeteroChild 0] 8.

(** [struct { A float32; E struct{} }]. *)
Definition EmptyChild : rtype := StructOf "" [] 0.

Definition EmptyVertex : rtype :=
  StructOf "main.EmptyVertex"
    [mkStructField "A" float32T 0; mkStructField "E" EmptyChild 4] 8.

(** [struct { A float32; Pad [1 << 31]int8 }]. *)
Definition TailPaddedVertex : rtype :=
  StructOf "main.TailPaddedVertex"
    [mkStructField "A" float32T 0; mkStructField "Pad" HugeArray 4]
    (2 ^ 31 + 4).

(** [struct { Pos [3]float32; Color [4]uint8; Ids [4]int }]. *)
Definition ArrayFieldsVertex : rtype :=
  StructOf "main.ArrayFieldsVertex"
    [mkStructField "Pos" (ArrayOf "" 3 float32T 12) 0;
     mkStructField "Color" (ArrayOf "" 4 uint8T 4) 12;
     mkStructField "Ids" (ArrayOf "" 4 intT 32) 16] 48.

(** [struct { Weight MyFloat; Id uint8 }]. *)
Definition NamedScalarVertex : rtype :=
  StructOf "main.NamedScalarVertex"
    [mkStructField "Weight" MyFloat 0; mkStructField "Id" uint8T 4] 8.

(** [[2]int]. *)
Definition IntPair : rtype := ArrayOf "" 2 intT 16.

(** [type Inner struct { X, Y float32 }]. *)
Definition Inner : rtype :=
  StructOf "main.Inner"
    [mkStructField "X" float32T 0; mkStructField "Y" float32T 4] 8.

(** [struct { A float32; Inner }]: [Inner] is embedded, at byte 4. *)
Definition EmbeddingVertex : rtype :=
  StructOf "main.EmbeddingVertex"
    [mkStructField "A" float32T 0; mkField "Inner" Inner 4 true] 12.

(** [type InnerP struct { P rl.Vector3 }]. *)
Definition InnerP : rtype :=
  StructOf "main.InnerP" [mkStructField "P" Vector3 0] 12.

(** [struct { A float32; InnerP }]: [P] is at byte 4 of the record. *)
Definition PromotingVertex : rtype :=
  StructOf "main.PromotingVertex"
    [mkStructField "A" float32T 0; mkField "InnerP" InnerP 4 true] 16.

(** [struct { Inner; Other }] with [type Other struct { Y uint8 }]: the
    name [Y] is promoted twice at one depth. *)
Definition Other : rtype :=
  StructOf "main.Other" [mkStructField "Y" uint8T 0] 1.

Definition AmbiguousVertex : rtype :=
  StructOf "main.AmbiguousVertex"
    [mkField "Inner" Inner 0 true; mkField "Other" Other 8 true] 12.

End Examples.

(** * Properties *)

(** ** Type identity *)

Lemma Kind_beq_eq (a b : Kind) : Kind_beq a b = true <-> a = b.
Proof.
  split.
  - apply internal_Kind_dec_bl.
  - apply internal_Kind_dec_lb.
Qed.

Lemma rtype_eqb_refl (t : rtype) : rtype_eqb t t = true.
Proof.
  induction t as [n k s | n l e s IH | n fs s IH] using rtype_nested_ind;
    simpl.
  - rewrite String.eqb_refl, N.eqb_refl.
    now rewrite (proj2 (Kind_beq_eq k k) eq_refl).
  - now rewrite String.eqb_refl, !N.eqb_refl, IH.
  - rewrite String.eqb_refl, N.eqb_refl. simpl.
    induction IH as [| f r Hf _ IHr]; [reflexivity |].
    now rewrite String.eqb_refl, Hf, N.eqb_refl, Bool.eqb_reflx, IHr.
Qed.

Lemma rtype_eqb_sound (a : rtype) : forall b, rtype_eqb a b = true -> a = b.
Proof.
  induction a as [n k s | n l e s IH | n fs s IH] using rtype_nested_ind;
    intros [n' k' s' | n' l' e' s' | n' fs' s']; simpl; try discriminate.
  - rewrite !andb_true_iff. intros [[Hn Hk] Hs].
    apply String.eqb_eq in Hn. apply Kind_beq_eq in Hk. apply N.eqb_eq in Hs.
    now subst.
  - rewrite !andb_true_iff. intros [[[Hn Hl] He] Hs].
    apply String.eqb_eq in Hn. apply N.eqb_eq in Hl, Hs. apply IH in He.
    now subst.
  - rewrite !andb_true_iff. intros [[Hn Hs] Hfs].
    apply String.eqb_eq in Hn. apply N.eqb_eq in Hs. subst. f_equal.
    revert fs' Hfs.
    induction IH as [| f r Hf _ IHr]; intros [| f' r']; try discriminate.
    + reflexivity.
    + rewrite !andb_true_iff. intros [[[[Hn Ht] Ho] Ha] Hr].
      apply String.eqb_eq in Hn. apply N.eqb_eq in Ho.
      apply Bool.eqb_prop in Ha.
      apply Hf in Ht. apply IHr in Hr.
      destruct f, f'; simpl in *. now subst.
Qed.

(** [rtype_eqb] decides identity of types. *)
Lemma rtype_eqb_eq (a b : rtype) : rtype_eqb a b = true <-> a = b.
Proof.
  split; [apply rtype_eqb_sound | intros ->; apply rtype_eqb_refl].
Qed.

(** ** The lookup of a field by name *)

(** What holds of the types in the queue and of the type of the field found
    still holds after the fields of one struct were scanned. *)
Section Lookup_invariant.

Variable R : rtype -> Prop.

Lemma enqueue_inv (t : rtype) (multi : bool) (q : Type_.Queue) :
  R t -> Forall (fun e => R (fst e)) q ->
  Forall (fun e => R (fst e)) (Type_.enqueue t multi q).
Proof.
  intros Ht Hq. unfold Type_.enqueue.
  destruct (Type_.queued t q).
  - apply Forall_map. eapply Forall_impl; [| exact Hq].
    intros e He. now destruct (rtype_eqb (fst e) t).
  - apply Forall_app. split; [assumption |]. now constructor.
Qed.

Lemma scanFields_inv (name : string) (multi : bool)
  (fs : list StructField) :
  Forall (fun f => R (Typ f)) fs ->
  forall result next result' next',
    (forall f, result = Some f -> R (Typ f)) ->
    Forall (fun e => R (fst e)) next ->
    Type_.scanFields name multi fs result next = Some (result', next') ->
    (forall f, result' = Some f -> R (Typ f))
    /\ Forall (fun e => R (fst e)) next'.
Proof.
  induction 1 as [| f fs Hf _ IH]; intros result next result' next' Hr Hn;
    cbn [Type_.scanFields].
  - intros E. injection E as <- <-. now split.
  - destruct (String.eqb (Name f) name).
    + destruct result as [g |]; [discriminate |].
      destruct multi; [discriminate |].
      apply IH; [| assumption]. intros g E. injection E as <-. exact Hf.
    + destruct result as [g |]; [now apply IH |].
      destruct (Type_.embedsStruct f); apply IH; try assumption.
      now apply enqueue_inv.
Qed.

Lemma scanLevel_inv (name : string) (current : Type_.Queue) :
  Forall (fun e => Forall (fun f => R (Typ f)) (Type_.fields (fst e)))
    current ->
  forall visited result next result' next' visited',
    (forall f, result = Some f -> R (Typ f)) ->
    Forall (fun e => R (fst e)) next ->
    Type_.scanLevel name current visited result next
    = Some (result', next', visited') ->
    (forall f, result' = Some f -> R (Typ f))
    /\ Forall (fun e => R (fst e)) next'.
Proof.
  induction 1 as [| [t multi] current Ht _ IH];
    intros visited result next result' next' visited' Hr Hn;
    cbn [Type_.scanLevel].
  - intros E. injection E as <- <- _. now split.
  - destruct (existsb (rtype_eqb t) visited); [now apply IH |].
    destruct (Type_.scanFields name multi (Type_.fields t) result next)
      as [[r1 n1] |] eqn:E1; [| discriminate].
    destruct (scanFields_inv name multi _ Ht _ _ _ _ Hr Hn E1) as [Hr1 Hn1].
    now apply IH.
Qed.

End Lookup_invariant.

(** A property of types that goes from a struct to the types of its
    fields goes to the type of every field that [FieldByName] finds. *)
Lemma search_inv (R : rtype -> Prop) :
  (forall t, R t -> Forall (fun f => R (Typ f)) (Type_.fields t)) ->
  forall fuel name current visited f,
    Forall (fun e => R (fst e)) current ->
    Type_.search fuel name current visited = Some f ->
    R (Typ f).
Proof.
  intros Hered. induction fuel as [| fuel IH];
    intros name current visited f Hc; cbn [Type_.search]; [discriminate |].
  destruct current as [| e current']; [discriminate |].
  destruct (Type_.scanLevel name (e :: current') visited None [])
    as [[[[g |] next] visited'] |] eqn:E; [| | discriminate].
  - intros H. injection H as <-.
    refine (proj1 (scanLevel_inv R name _ _ _ _ _ _ _ _ _ _ E) g eq_refl).
    + eapply Forall_impl; [| exact Hc]. intros x. apply Hered.
    + discriminate.
    + constructor.
  - apply IH.
    refine (proj2 (scanLevel_inv R name _ _ _ _ _ _ _ _ _ _ E)).
    + eapply Forall_impl; [| exact Hc]. intros x. apply Hered.
    + discriminate.
    + constructor.
Qed.

Lemma FieldByName_inv (R : rtype -> Prop) (t : rtype) (name : string)
  (f : StructField) :
  (forall t, R t -> Forall (fun f => R (Typ f)) (Type_.fields t)) ->
  R t ->
  Type_.FieldByName t name = Some (Some f) ->
  R (Typ f).
Proof.
  intros Hered Ht. destruct t as [n k s | n l e s | n fs s];
    cbn [Type_.FieldByName]; try discriminate.
  destruct (String.eqb name ""); [discriminate |].
  destruct (find (fun g => String.eqb (Name g) name) fs) as [g |] eqn:Hfind.
  - intros E. injection E as <-.
    apply find_some in Hfind. destruct Hfind as [Hin _].
    specialize (Hered _ Ht). cbn [Type_.fields] in Hered.
    rewrite Forall_forall in Hered. now apply Hered.
  - destruct (existsb Anonymous fs); [| discriminate].
    intros E. injection E as E. unfold Type_.FieldByNameFunc in E.
    refine (search_inv R Hered _ _ _ _ _ _ E).
    constructor; [exact Ht | constructor].
Qed.

(** [FieldByName] panics on no struct type. *)
Lemma FieldByName_struct (n : string) (fs : list StructField) (s : N)
  (name : string) :
  exists found, Type_.FieldByName (StructOf n fs s) name = Some found.
Proof. cbn [Type_.FieldByName]. eexists. reflexivity. Qed.

(** The type of a field is nested less deep than the struct. *)
Lemma depth_field (t : rtype) (f : StructField) :
  In f (Type_.fields t) -> (Type_.depth (Typ f) < Type_.depth t)%nat.
Proof.
  destruct t as [n k s | n l e s | n fs s]; cbn [Type_.fields Type_.depth In];
    [tauto | tauto |].
  induction fs as [| g fs IH]; cbn [In fold_right]; [tauto |].
  intros [-> | Hin]; [lia |]. specialize (IH Hin). lia.
Qed.

Lemma search_nil (fuel : nat) (name : string) (visited : list rtype) :
  Type_.search fuel name [] visited = None.
Proof. now destruct fuel. Qed.

(** The search is at its end before the fuel is: more fuel than the depth
    of the types in the queue changes nothing. *)
Lemma search_fuel (k : nat) :
  forall extra name current visited,
    Forall (fun e => (Type_.depth (fst e) <= k)%nat) current ->
    Type_.search (S k + extra) name current visited
    = Type_.search (S k) name current visited.
Proof.
  induction k as [| k IH]; intros extra name current visited Hc;
    cbn [Type_.search Nat.add];
    (destruct current as [| e current']; [reflexivity |]);
    destruct (Type_.scanLevel name (e :: current') visited None [])
      as [[[[g |] next] visited'] |] eqn:E; try reflexivity.
  - assert (Hn : Forall (fun e => (Type_.depth (fst e) < 0)%nat) next).
    { refine (proj2 (scanLevel_inv (fun x => (Type_.depth x < 0)%nat) name
                       _ _ _ _ _ _ _ _ _ _ E)).
      + eapply Forall_impl; [| exact Hc]. intros x Hx.
        apply Forall_forall. intros f Hf. apply depth_field in Hf.
        cbn beta in *. lia.
      + discriminate.
      + constructor. }
    destruct next as [| x next']; [now rewrite !search_nil |].
    inversion Hn; subst. lia.
  - apply (IH extra).
    assert (Hn : Forall (fun e => (Type_.depth (fst e) < S k)%nat) next).
    { refine (proj2 (scanLevel_inv (fun x => (Type_.depth x < S k)%nat) name
                       _ _ _ _ _ _ _ _ _ _ E)).
      + eapply Forall_impl; [| exact Hc]. intros x Hx.
        apply Forall_forall. intros f Hf. apply depth_field in Hf.
        cbn beta in *. lia.
      + discriminate.
      + constructor. }
    eapply Forall_impl; [| exact Hn]. intros x Hx. cbn beta in Hx. lia.
Qed.

(** [FieldByNameFunc] does not depend on the fuel it is given. *)
Lemma FieldByNameFunc_fuel (t : rtype) (name : string) (extra : nat) :
  Type_.search (S (Type_.depth t) + extra) name [(t, false)] []
  = Type_.FieldByNameFunc t name.
Proof.
  unfold Type_.FieldByNameFunc. apply search_fuel.
  constructor; [cbn; lia | constructor].
Qed.

(** ** The log-and-panic computations *)

Lemma bind_ret_r (m : GL unit) : bind m (fun _ => ret tt) = m.
Proof.
  destruct m as [w [[] | p]]; simpl; [now rewrite app_nil_r | reflexivity].
Qed.

Lemma bind_assoc {A B C} (m : GL A) (f : A -> GL B) (g : B -> GL C) :
  bind (bind m f) g = bind m (fun a => bind (f a) g).
Proof.
  destruct m as [w [a | p]]; simpl; [| reflexivity].
  destruct (f a) as [w1 [b | p]]; simpl; [| reflexivity].
  destruct (g b) as [w2 r]. now rewrite app_assoc.
Qed.

Lemma forRange_app {A} (body : Z -> A -> GL unit) (xs ys : list A) :
  forall i,
    forRange body i (xs ++ ys)
    = bind (forRange body i xs)
        (fun _ => forRange body (i + Z.of_nat (length xs)) ys).
Proof.
  induction xs as [| x xs IH]; intros i; simpl.
  - rewrite Z.add_0_r. now destruct (forRange body i ys).
  - rewrite bind_assoc. f_equal.
    replace (i + Z.pos (Pos.of_succ_nat (length xs)))
      with (i + 1 + Z.of_nat (length xs)) by lia.
    now rewrite <- IH.
Qed.

(** A loop that panics does so in one entry, after the entries before it
    have run to their end, and never starts the entries after it. *)
Lemma forRange_panicked {A} (body : Z -> A -> GL unit) (xs : list A) :
  forall i calls p,
    forRange body i xs = (calls, Panicked p) ->
    exists pre a post c1 c2,
      xs = pre ++ a :: post
      /\ forRange body i pre = (c1, Returned tt)
      /\ body (i + Z.of_nat (length pre)) a = (c2, Panicked p)
      /\ calls = c1 ++ c2.
Proof.
  induction xs as [| x xs IH]; intros i calls p; simpl.
  - discriminate.
  - destruct (body i x) as [w [[] | q]] eqn:Hx; simpl.
    + destruct (forRange body (i + 1) xs) as [w' r] eqn:Hr.
      intros H. injection H as <- ->.
      destruct (IH _ _ _ Hr) as (pre & a & post & c1 & c2 & -> & H1 & H2 & ->).
      exists (x :: pre), a, post, (w ++ c1), c2. simpl.
      rewrite Hx, H1. simpl.
      replace (i + Z.pos (Pos.of_succ_nat (length pre)))
        with (i + 1 + Z.of_nat (length pre)) by lia.
      now rewrite app_assoc.
    + intros H. injection H as <- <-.
      exists [], x, xs, [], w. simpl. now rewrite Z.add_0_r.
Qed.

(** ** Machine integers in range *)

Lemma int32_fits (x : Z) : fits_int32 x -> int32 x = x.
Proof.
  unfold fits_int32, int32. intros H.
  rewrite Z.mod_small; lia.
Qed.

Lemma int32_nonzero (x : Z) : 0 < x < 2 ^ 32 -> int32 x <> 0.
Proof.
  unfold int32. intros H E.
  assert (Hm : (x + 2 ^ 31) mod 2 ^ 32 = 2 ^ 31) by lia.
  destruct (Z_lt_ge_dec x (2 ^ 31)) as [Hlt | Hge].
  - rewrite Z.mod_small in Hm; lia.
  - replace (x + 2 ^ 31) with ((x - 2 ^ 31) + 1 * 2 ^ 32) in Hm by lia.
    rewrite Z.mod_add, Z.mod_small in Hm; lia.
Qed.

(** ** The entries of a struct-backed record *)

Section Entries.

Context {dt : DataTypes}.

(** The two log entries of one defined attribute. *)
Lemma define_log (attr : VertexAttributesConfig) (c ty s o : Z) :
  define attr c ty s o
  = ([SetVertexAttribute (Attribute attr) c ty (Normalized attr) s o;
      EnableVertexAttribute (Attribute attr)], Returned tt).
Proof. reflexivity. Qed.

(** The loop of [childStruct] over the members after the first: silent, and
    a panic exactly when a member's type is not the first member's. *)
Lemma sameType_loop_from (cn : string) (csz : N) (m0 : StructField)
  (prev : rtype) (p : Panic) (ms : list StructField) :
  forall (pre : list StructField) (idx : Z),
    forRange (fun _ i =>
        fi <- reflected (Type_.Field (StructOf cn (m0 :: pre ++ ms) csz) i) ;;
        if negb (rtype_eqb prev (Typ fi)) then panic p else ret tt)
      idx (map (fun k => 1 + Z.of_nat k) (seq (length pre) (length ms)))
    = if forallb (fun m => rtype_eqb prev (Typ m)) ms
      then ([], Returned tt) else ([], Panicked p).
Proof.
  induction ms as [| m ms IH]; intros pre idx; [reflexivity |].
  cbn [length seq map forRange forallb Type_.Field].
  replace (1 + Z.of_nat (length pre)) with (Z.of_nat (S (length pre))) by lia.
  assert (Hlt : (Z.of_nat (S (length pre)) <? 0) = false)
    by (apply Z.ltb_ge; lia).
  rewrite Hlt, Nat2Z.id.
  cbn [nth_error].
  rewrite nth_error_app2, Nat.sub_diag by lia.
  cbn [nth_error reflected ret bind].
  destruct (rtype_eqb prev (Typ m)); cbn [negb andb panic ret bind app];
    [| reflexivity].
  specialize (IH (pre ++ [m]) (idx + 1)).
  rewrite <- app_assoc, length_app in IH. cbn [length app] in IH.
  rewrite Nat.add_1_r in IH.
  destruct (forRange _ (idx + 1) _) as [w r] eqn:E in |- *.
  rewrite <- IH. symmetry. exact E.
Qed.

Lemma sameType_loop (cn : string) (csz : N) (m0 : StructField)
  (prev : rtype) (p : Panic) (ms : list StructField) :
  forLoop 1 (Z.of_nat (length (m0 :: ms))) (fun i =>
      fi <- reflected (Type_.Field (StructOf cn (m0 :: ms) csz) i) ;;
      if negb (rtype_eqb prev (Typ fi)) then panic p else ret tt)
  = if forallb (fun m => rtype_eqb prev (Typ m)) ms
    then ([], Returned tt) else ([], Panicked p).
Proof.
  unfold forLoop, upto.
  replace (Z.to_nat (Z.of_nat (length (m0 :: ms)) - 1)) with (length ms)
    by (cbn [length]; lia).
  exact (sameType_loop_from cn csz m0 prev p ms [] 0).
Qed.

(** What [childStruct] does on a struct with at least one member that passes
    the emptiness test. *)
Lemma childStruct_members (attr : VertexAttributesConfig)
  (field : StructField) (stride : Z) (cn : string) (m0 : StructField)
  (ms : list StructField) (csz : N) :
  Typ field = StructOf cn (m0 :: ms) csz ->
  int32 (Z.of_nat (length (m0 :: ms))) <> 0 ->
  childStruct attr field stride
  = if snd (glType (Type_.Kind (Typ m0))) then
      if forallb (fun m => rtype_eqb (Typ m0) (Typ m)) ms
      then define attr (int32 (Z.of_nat (length (m0 :: ms))))
             (fst (glType (Type_.Kind (Typ m0)))) stride
             (int32 (Z.of_N (Offset field)))
      else ([], Panicked (ChildStructNotSameType (Field attr) (Typ field)))
    else ([], Panicked (ChildStructNotPrimitive (Field attr) (Typ m0))).
Proof.
  intros Hty Hn. unfold childStruct. rewrite Hty.
  cbn [Type_.NumField reflected ret bind app].
  apply Z.eqb_neq in Hn. rewrite Hn.
  change (Type_.Field (StructOf cn (m0 :: ms) csz) 0) with (Some m0).
  cbn [reflected ret bind app].
  destruct (glType (Type_.Kind (Typ m0))) as [ty ok]. cbn [fst snd].
  destruct ok; cbn [negb]; [| reflexivity].
  rewrite sameType_loop.
  destruct (forallb _ ms); reflexivity.
Qed.

(** [childStruct] either panics without a call or defines the attribute. *)
Lemma childStruct_cases (attr : VertexAttributesConfig)
  (field : StructField) (stride : Z) :
  (exists p, childStruct attr field stride = ([], Panicked p))
  \/ (exists c ty o, childStruct attr field stride
                     = define attr c ty stride o).
Proof.
  destruct (Typ field) as [n k s | n l e s | cn [| m0 ms] csz] eqn:Hty.
  1-2: left; eexists; unfold childStruct; rewrite Hty; reflexivity.
  - left. eexists. unfold childStruct. rewrite Hty. reflexivity.
  - destruct (Z.eq_dec (int32 (Z.of_nat (length (m0 :: ms)))) 0) as [E | E].
    + left. eexists. unfold childStruct. rewrite Hty.
      cbn [Type_.NumField reflected ret bind app].
      apply Z.eqb_eq in E. rewrite E. reflexivity.
    + rewrite (childStruct_members _ _ _ _ _ _ _ Hty E).
      destruct (snd (glType _)); [| left; eexists; reflexivity].
      destruct (forallb _ ms); [| left; eexists; reflexivity].
      right. do 3 eexists. reflexivity.
Qed.

(** One binding entry of a struct-backed record has one of three ends: a
    panic before any call, the two calls of [define], or nothing at all. *)
Lemma structEntry_cases (t : rtype) (stride : Z)
  (attr : VertexAttributesConfig) :
  (exists p, structEntry t stride attr = ([], Panicked p))
  \/ (exists c ty o, structEntry t stride attr = define attr c ty stride o)
  \/ structEntry t stride attr = ([], Returned tt).
Proof.
  unfold structEntry.
  destruct (Type_.FieldByName t (Field attr)) as [[field |] |];
    cbn [reflected ret bind app panic];
    [| left; eexists; reflexivity | left; eexists; reflexivity].
  destruct (glType (Type_.Kind (Typ field))) as [ty ok].
  destruct ok.
  { right; left. do 3 eexists. reflexivity. }
  destruct (Type_.Kind (Typ field)) eqn:Hk;
    try (right; right; reflexivity).
  - destruct (Type_.Elem (Typ field)) as [e |];
      cbn [reflected ret bind app panic]; [| left; eexists; reflexivity].
    destruct (Type_.Len (Typ field)) as [len |];
      cbn [reflected ret bind app panic]; [| left; eexists; reflexivity].
    destruct (glType (Type_.Kind e)) as [ty' ok']. destruct ok'; cbn [negb].
    + right; left. do 3 eexists. reflexivity.
    + left. eexists. reflexivity.
  - destruct (childStruct_cases attr field stride)
      as [[p H] | (c & ty' & o & H)];
      rewrite H; [left; eexists | right; left; do 3 eexists]; reflexivity.
Qed.

End Entries.

(** ** The whole call *)

Section Call.

Context {dt : DataTypes}.

Lemma all_kinds_complete (k : Kind) : In k all_kinds.
Proof. destruct k; simpl; tauto. Qed.

(** With vertices at hand the call is the switch on the kind of [T]. *)
Lemma SetVertexAttributes_nonempty {T : Type} (t : rtype) (vs : list T)
  (attrs : list VertexAttributesConfig) :
  vs <> [] ->
  SetVertexAttributes t vs attrs
  = match Type_.Kind t with
    | Array => arrayBacked t (int32 (Z.of_N (Type_.Size t))) attrs
    | Struct =>
        forRange (fun _ attr =>
            structEntry t (int32 (Z.of_N (Type_.Size t))) attr) 0 attrs
    | _ => panic UnsupportedVertexType
    end.
Proof. destruct vs; [congruence | reflexivity]. Qed.

(** A loop whose body does not read the index. *)
Lemma forRange_index {A} (f : A -> GL unit) (xs : list A) :
  forall i j, forRange (fun _ x => f x) i xs = forRange (fun _ x => f x) j xs.
Proof.
  induction xs as [| x xs IH]; intros i j; simpl; [reflexivity |].
  now rewrite (IH (i + 1) (j + 1)).
Qed.

(** The struct-backed loop over a list in two parts. *)
Lemma structLoop_app (f : VertexAttributesConfig -> GL unit)
  (xs ys : list VertexAttributesConfig) :
  forRange (fun _ a => f a) 0 (xs ++ ys)
  = bind (forRange (fun _ a => f a) 0 xs)
      (fun _ => forRange (fun _ a => f a) 0 ys).
Proof.
  rewrite forRange_app.
  destruct (forRange (fun _ a => f a) 0 xs) as [w [[] | p]];
    cbn [bind]; [| reflexivity].
  now rewrite (forRange_index f ys _ 0).
Qed.

(** A field whose type is no supported primitive, no array and no struct:
    the entry ends without a call and without a panic. *)
Lemma structEntry_other_kind (t : rtype) (stride : Z)
  (attr : VertexAttributesConfig) (field : StructField) :
  Type_.FieldByName t (Field attr) = Some (Some field) ->
  snd (glType (Type_.Kind (Typ field))) = false ->
  Type_.Kind (Typ field) <> Array ->
  Type_.Kind (Typ field) <> Struct ->
  structEntry t stride attr = ([], Returned tt).
Proof.
  intros Hf Hg Ha Hs. unfold structEntry. rewrite Hf.
  cbn [reflected ret bind app].
  destruct (glType (Type_.Kind (Typ field))) as [ty ok].
  cbn [snd] in Hg. subst ok.
  destruct (Type_.Kind (Typ field)); try reflexivity; congruence.
Qed.

(** Claim C1 (as the code has it): a binding of [struct { Count int }] to its
    field [Count], whose type is the unsupported primitive [int], issues no
    GPU call and does not fail; the call returns as if the entry were not
    there. *)
Theorem unsupported_field_is_skipped :
  SetVertexAttributes Examples.CountVertex [tt] [mkConfig "Count" 0 false]
  = ([], Returned tt).
Proof. reflexivity. Qed.

(** Claim C4 (amended): [glType] returns the code of the table for each of
    [int8], [uint8], [int16], [uint16], [int32], [uint32], [float32] and
    [float64], and [(-1, false)] for every other kind, among them [int],
    [uint], [int64], [uint64] and [bool]; the kinds it accepts are these
    eight. *)
Theorem glType_table :
  glType Int8 = (Byte, true)
  /\ glType Uint8 = (UnsignedByte, true)
  /\ glType Int16 = (Short, true)
  /\ glType Uint16 = (UnsignedShort, true)
  /\ glType Int32 = (Int, true)
  /\ glType Uint32 = (UnsignedInt, true)
  /\ glType Float32 = (Float, true)
  /\ glType Float64 = (Double, true)
  /\ (forall k,
        ~ In k [Int8; Uint8; Int16; Uint16; Int32; Uint32; Float32; Float64]
        -> glType k = (-1, false))
  /\ glType reflect.Int = (-1, false)
  /\ glType Uint = (-1, false)
  /\ glType Int64 = (-1, false)
  /\ glType Uint64 = (-1, false)
  /\ glType Bool = (-1, false)
  /\ supported_kinds
     = [Int8; Int16; Int32; Uint8; Uint16; Uint32; Float32; Float64]
  /\ length supported_kinds = 8%nat.
Proof.
  repeat split; try reflexivity.
  intros k Hk. destruct k; try reflexivity; exfalso; apply Hk; simpl; tauto.
Qed.

(** Claim C5: with an empty vertex slice the call returns at once, whatever
    the record type and the bindings are: no GPU call, no panic. *)
Theorem empty_vertices_noop {T : Type} (t : rtype)
  (attrs : list VertexAttributesConfig) :
  SetVertexAttributes t (@nil T) attrs = ([], Returned tt).
Proof. reflexivity. Qed.

(** Claim C10: the calls issued and the outcome depend on the record type
    and the bindings only; two non-empty vertex slices of any contents and
    lengths give the same run. *)
Theorem vertices_contents_irrelevant {T : Type} (t : rtype)
  (vs1 vs2 : list T) (attrs : list VertexAttributesConfig) :
  vs1 <> [] -> vs2 <> [] ->
  SetVertexAttributes t vs1 attrs = SetVertexAttributes t vs2 attrs.
Proof.
  intros H1 H2. now rewrite !SetVertexAttributes_nonempty.
Qed.

(** *** The array-backed path *)

Lemma arrayBacked_array (name : string) (len : N) (e : rtype) (size : N)
  (stride : Z) (attrs : list VertexAttributesConfig) :
  arrayBacked (ArrayOf name len e size) stride attrs
  = if snd (glType (Type_.Kind e)) then
      forRange (fun i attr =>
          define attr (int32 (Z.of_N len)) (fst (glType (Type_.Kind e)))
            stride (mul32 (int32 i) (int32 (Z.of_N (Type_.Size e)))))
        0 attrs
    else ([], Panicked (ArrayBackingNotPrimitive e)).
Proof.
  unfold arrayBacked. cbn [Type_.Elem Type_.Len reflected ret bind app].
  destruct (glType (Type_.Kind e)) as [ty ok]. cbn [fst snd].
  destruct ok; cbn [negb]; [| reflexivity].
  now destruct (forRange _ 0 attrs).
Qed.

(** A loop of [define] calls runs to its end. *)
Lemma defineLoop_returns (g : Z -> VertexAttributesConfig -> Z * Z * Z * Z)
  (xs : list VertexAttributesConfig) :
  forall i,
    snd (forRange (fun i a =>
             let '(c, ty, s, o) := g i a in define a c ty s o) i xs)
    = Returned tt.
Proof.
  induction xs as [| x xs IH]; intros i; simpl; [reflexivity |].
  destruct (g i x) as [[[c ty] s] o]. simpl.
  specialize (IH (i + 1)).
  now destruct (forRange _ (i + 1) xs).
Qed.

(** The array-backed path fails before its loop or not at all. *)
Lemma arrayBacked_cases (t : rtype) (stride : Z) :
  (exists p, forall attrs, arrayBacked t stride attrs = ([], Panicked p))
  \/ (forall attrs, snd (arrayBacked t stride attrs) = Returned tt).
Proof.
  destruct t as [n k s | n l e s | n fs s].
  - left. eexists. intros attrs. reflexivity.
  - destruct (snd (glType (Type_.Kind e))) eqn:Hok.
    + right. intros attrs. rewrite arrayBacked_array, Hok.
      exact (defineLoop_returns
               (fun i _ => (int32 (Z.of_N l), fst (glType (Type_.Kind e)),
                            stride,
                            mul32 (int32 i) (int32 (Z.of_N (Type_.Size e)))))
               attrs 0).
    + left. eexists. intros attrs. rewrite arrayBacked_array, Hok.
      reflexivity.
  - left. eexists. intros attrs. reflexivity.
Qed.

(** *** Failures *)

(** The run of one entry alone. *)
Lemma SetVertexAttributes_single {T : Type} (t : rtype) (vs : list T)
  (a : VertexAttributesConfig) :
  vs <> [] -> Type_.Kind t = Struct ->
  SetVertexAttributes t vs [a]
  = structEntry t (int32 (Z.of_N (Type_.Size t))) a.
Proof.
  intros Hne Hk. rewrite SetVertexAttributes_nonempty, Hk by assumption.
  cbn [forRange]. apply bind_ret_r.
Qed.

Lemma SetVertexAttributes_panicked {T : Type} (t : rtype) (vs : list T)
  (attrs : list VertexAttributesConfig) (calls : list GLCall) (p : Panic) :
  vs <> [] ->
  SetVertexAttributes t vs attrs = (calls, Panicked p) ->
  (calls = []
   /\ forall attrs', SetVertexAttributes t vs attrs' = ([], Panicked p))
  \/ (exists pre a post,
        attrs = pre ++ a :: post
        /\ SetVertexAttributes t vs pre = (calls, Returned tt)
        /\ SetVertexAttributes t vs [a] = ([], Panicked p)).
Proof.
  intros Hne H.
  destruct (Type_.Kind t) eqn:Hk;
    try (left; rewrite SetVertexAttributes_nonempty, Hk in H by assumption;
         injection H as <- <-; split; [reflexivity |];
         intros attrs'; rewrite SetVertexAttributes_nonempty, Hk by assumption;
         reflexivity).
  - (* Array *)
    left. rewrite SetVertexAttributes_nonempty, Hk in H by assumption.
    destruct (arrayBacked_cases t (int32 (Z.of_N (Type_.Size t))))
      as [[q Hq] | Hr].
    + rewrite Hq in H. injection H as <- <-. split; [reflexivity |].
      intros attrs'. now rewrite SetVertexAttributes_nonempty, Hk.
    + specialize (Hr attrs). rewrite H in Hr. discriminate.
  - (* Struct *)
    right. rewrite SetVertexAttributes_nonempty, Hk in H by assumption.
    apply forRange_panicked in H.
    destruct H as (pre & a & post & c1 & c2 & -> & H1 & H2 & ->).
    exists pre, a, post.
    destruct (structEntry_cases t (int32 (Z.of_N (Type_.Size t))) a)
      as [[q Hq] | [(c & ty & o & Hq) | Hq]];
      rewrite Hq in H2; try discriminate.
    injection H2 as <- <-. rewrite app_nil_r.
    split; [reflexivity |]. split.
    + now rewrite SetVertexAttributes_nonempty, Hk.
    + now rewrite SetVertexAttributes_single.
Qed.

Lemma SetVertexAttributes_failing_entry {T : Type} (t : rtype)
  (vs : list T) (pre post : list VertexAttributesConfig)
  (a : VertexAttributesConfig) (calls c' : list GLCall) (p : Panic) :
  vs <> [] ->
  SetVertexAttributes t vs pre = (calls, Returned tt) ->
  SetVertexAttributes t vs [a] = (c', Panicked p) ->
  SetVertexAttributes t vs (pre ++ a :: post) = (calls, Panicked p)
  /\ c' = [].
Proof.
  intros Hne Hpre Ha.
  destruct (Type_.Kind t) eqn:Hk;
    try (rewrite SetVertexAttributes_nonempty, Hk in Hpre by assumption;
         discriminate).
  - (* Array *)
    rewrite SetVertexAttributes_nonempty, Hk in Hpre, Ha by assumption.
    destruct (arrayBacked_cases t (int32 (Z.of_N (Type_.Size t))))
      as [[q Hq] | Hr].
    + rewrite Hq in Hpre. discriminate.
    + specialize (Hr [a]). rewrite Ha in Hr. discriminate.
  - (* Struct *)
    rewrite SetVertexAttributes_single in Ha by assumption.
    rewrite SetVertexAttributes_nonempty, Hk in Hpre |- * by assumption.
    destruct (structEntry_cases t (int32 (Z.of_N (Type_.Size t))) a)
      as [[q Hq] | [(c & ty & o & Hq) | Hq]];
      rewrite Hq in Ha; try discriminate.
    injection Ha as <- <-. split; [| reflexivity].
    rewrite structLoop_app, Hpre. cbn [bind forRange].
    rewrite Hq. cbn [bind]. now rewrite app_nil_r.
Qed.

(** Claim C3: a call that fails stops where the failure is found.  Either
    the record type itself is refused, before any binding is looked at and
    with no GPU call at all, or one entry fails: then the calls issued are
    exactly those of the entries before it, which ran to their end, the
    failing entry issues none, and the entries after it are never started.
    In particular an entry that names no field of the struct fails with the
    unknown-field panic before any call for it. *)
Theorem failure_aborts_at_detection {T : Type} (t : rtype) (vs : list T) :
  vs <> [] ->
  (forall attrs calls p,
      SetVertexAttributes t vs attrs = (calls, Panicked p) ->
      (calls = []
       /\ forall attrs', SetVertexAttributes t vs attrs' = ([], Panicked p))
      \/ (exists pre a post,
            attrs = pre ++ a :: post
            /\ SetVertexAttributes t vs pre = (calls, Returned tt)
            /\ SetVertexAttributes t vs [a] = ([], Panicked p)))
  /\ (forall pre a post calls c' p,
        SetVertexAttributes t vs pre = (calls, Returned tt) ->
        SetVertexAttributes t vs [a] = (c', Panicked p) ->
        SetVertexAttributes t vs (pre ++ a :: post) = (calls, Panicked p)
        /\ c' = [])
  /\ (forall pre a post calls,
        Type_.Kind t = Struct ->
        Type_.FieldByName t (Field a) = Some None ->
        SetVertexAttributes t vs pre = (calls, Returned tt) ->
        SetVertexAttributes t vs (pre ++ a :: post)
        = (calls, Panicked (NoSuchField t (Field a)))).
Proof.
  intros Hne. split; [| split].
  - intros attrs calls p. now apply SetVertexAttributes_panicked.
  - intros pre a post calls c' p.
    now apply SetVertexAttributes_failing_entry.
  - intros pre a post calls Hk Hf Hpre.
    refine (proj1 (SetVertexAttributes_failing_entry t vs pre post a calls []
                     _ Hne Hpre _)).
    rewrite SetVertexAttributes_single by assumption.
    unfold structEntry. now rewrite Hf.
Qed.

(** *** Stride *)

Lemma forRange_log_Forall {A} (P : GLCall -> Prop)
  (body : Z -> A -> GL unit) :
  (forall i x, Forall P (fst (body i x))) ->
  forall xs i, Forall P (fst (forRange body i xs)).
Proof.
  intros Hb. induction xs as [| x xs IH]; intros i; simpl; [constructor |].
  specialize (Hb i x). specialize (IH (i + 1)).
  destruct (body i x) as [w [[] | q]]; simpl in *; [| assumption].
  destruct (forRange body (i + 1) xs) as [w' r]. simpl in *.
  apply Forall_app. now split.
Qed.

(** Every logged call that has a stride has the one of the call. *)
Lemma stride_of_log {T : Type} (t : rtype) (vs : list T)
  (attrs : list VertexAttributesConfig) :
  Forall (fun c => forall s, strideOf c = Some s ->
                             s = int32 (Z.of_N (Type_.Size t)))
    (fst (SetVertexAttributes t vs attrs)).
Proof.
  destruct vs as [| v vs]; [constructor |].
  rewrite SetVertexAttributes_nonempty by discriminate.
  set (stride := int32 (Z.of_N (Type_.Size t))).
  destruct (Type_.Kind t) eqn:Hk; try apply Forall_nil.
  - destruct t as [n k s | n l e s | n fs s]; try apply Forall_nil.
    rewrite arrayBacked_array.
    destruct (snd (glType (Type_.Kind e))); [| apply Forall_nil].
    apply forRange_log_Forall. intros i x. rewrite define_log. cbn [fst].
    repeat constructor; cbn [strideOf]; congruence.
  - apply forRange_log_Forall. intros _ x.
    destruct (structEntry_cases t stride x)
      as [[q Hq] | [(c & ty & o & Hq) | Hq]]; rewrite Hq;
      try apply Forall_nil.
    rewrite define_log. cbn [fst].
    repeat constructor; cbn [strideOf]; congruence.
Qed.

(** Claim C6 (amended): every descriptor of one call carries one and the
    same stride, the byte size of one vertex record converted to [int32];
    it is that byte size whenever the size is below 2^31.  No entry has a
    stride of its own. *)
Theorem stride_invariant {T : Type} (t : rtype) (vs : list T)
  (attrs : list VertexAttributesConfig) (c : GLCall) (s : Z) :
  In c (fst (SetVertexAttributes t vs attrs)) ->
  strideOf c = Some s ->
  s = int32 (Z.of_N (Type_.Size t))
  /\ (Z.of_N (Type_.Size t) < 2 ^ 31 -> s = Z.of_N (Type_.Size t)).
Proof.
  intros Hin Hs.
  pose proof (stride_of_log t vs attrs) as Hall.
  rewrite Forall_forall in Hall. specialize (Hall c Hin s Hs).
  split; [assumption |].
  intros Hlt. rewrite Hall. apply int32_fits. unfold fits_int32. lia.
Qed.

(** *** Array-backed bindings *)

Lemma mul32_fits (i s : Z) :
  0 <= i -> 0 <= s -> i * s < 2 ^ 31 ->
  mul32 (int32 i) (int32 s) = i * s.
Proof.
  intros Hi Hs H. unfold mul32.
  destruct (Z.eq_dec i 0) as [-> | Hi0]; [reflexivity |].
  destruct (Z.eq_dec s 0) as [-> | Hs0].
  { change (int32 0) with 0. now rewrite !Z.mul_0_r. }
  rewrite (int32_fits i), (int32_fits s) by (unfold fits_int32; nia).
  apply int32_fits. unfold fits_int32. nia.
Qed.

(** The log of a loop of [define] calls, entry by entry. *)
Lemma defineLoop_log (c ty s : Z) (off : Z -> Z)
  (xs : list VertexAttributesConfig) :
  forall i0,
  exists w,
    forRange (fun i a => define a c ty s (off i)) i0 xs = (w, Returned tt)
    /\ length w = (2 * length xs)%nat
    /\ forall k a,
         nth_error xs k = Some a ->
         nth_error w (2 * k)
         = Some (SetVertexAttribute (Attribute a) c ty (Normalized a) s
                   (off (i0 + Z.of_nat k)))
         /\ nth_error w (2 * k + 1)
            = Some (EnableVertexAttribute (Attribute a)).
Proof.
  induction xs as [| x xs IH]; intros i0.
  - exists []. split; [reflexivity |]. split; [reflexivity |].
    intros [| k] a Hk; discriminate.
  - destruct (IH (i0 + 1)) as (w & Hw & Hlen & Hnth).
    exists (SetVertexAttribute (Attribute x) c ty (Normalized x) s (off i0)
            :: EnableVertexAttribute (Attribute x) :: w).
    split; [| split].
    + cbn [forRange]. rewrite define_log, Hw. reflexivity.
    + cbn [length]. lia.
    + intros [| k] a Hk.
      * injection Hk as <-. cbn. now rewrite Z.add_0_r.
      * cbn [nth_error] in Hk. destruct (Hnth k a Hk) as [H1 H2].
        replace (2 * S k)%nat with (S (S (2 * k))) by lia.
        cbn [nth_error Nat.add].
        replace (i0 + Z.of_nat (S k)) with (i0 + 1 + Z.of_nat k) by lia.
        split; [exact H1 | exact H2].
Qed.

(** Claim C2 (amended): for an array-backed record whose element kind is a
    supported primitive, N bindings give N (set-pointer, enable) pairs in
    the order of the request; every descriptor has the array length as its
    component count and the code of the element kind as its type, and the
    i-th has byte offset i times the element size -- the array length and
    the largest of these products being below 2^31, the range of the
    [int32] values that are passed on. *)
Theorem array_backed_bindings {T : Type} (vs : list T) (name : string)
  (len : N) (e : rtype) (size : N) (attrs : list VertexAttributesConfig)
  (ty : Z) :
  vs <> [] ->
  glType (Type_.Kind e) = (ty, true) ->
  Z.of_N len < 2 ^ 31 ->
  (Z.of_nat (length attrs) - 1) * Z.of_N (Type_.Size e) < 2 ^ 31 ->
  exists calls,
    SetVertexAttributes (ArrayOf name len e size) vs attrs
    = (calls, Returned tt)
    /\ length calls = (2 * length attrs)%nat
    /\ forall i a,
         nth_error attrs i = Some a ->
         nth_error calls (2 * i)
         = Some (SetVertexAttribute (Attribute a) (Z.of_N len) ty
                   (Normalized a) (int32 (Z.of_N size))
                   (Z.of_nat i * Z.of_N (Type_.Size e)))
         /\ nth_error calls (2 * i + 1)
            = Some (EnableVertexAttribute (Attribute a)).
Proof.
  intros Hne Hty Hlen Hoff.
  rewrite SetVertexAttributes_nonempty by assumption.
  cbn [Type_.Kind Type_.Size]. rewrite arrayBacked_array, Hty. cbn [fst snd].
  rewrite (int32_fits (Z.of_N len)) by (unfold fits_int32; lia).
  destruct (defineLoop_log (Z.of_N len) ty (int32 (Z.of_N size))
              (fun i => mul32 (int32 i) (int32 (Z.of_N (Type_.Size e))))
              attrs 0) as (w & Hw & Hl & Hnth).
  exists w. split; [exact Hw |]. split; [exact Hl |].
  intros i a Hi. destruct (Hnth i a Hi) as [H1 H2].
  split; [| exact H2]. rewrite H1. cbn [Z.add].
  rewrite mul32_fits; [reflexivity | lia | lia |].
  assert (Hb : (i < length attrs)%nat)
    by (apply nth_error_Some; congruence).
  nia.
Qed.

(** *** Nested aggregates *)

(** An entry whose field is a struct is handled by [childStruct]. *)
Lemma structEntry_child (t : rtype) (stride : Z)
  (attr : VertexAttributesConfig) (field : StructField) :
  Type_.FieldByName t (Field attr) = Some (Some field) ->
  Type_.Kind (Typ field) = Struct ->
  structEntry t stride attr = childStruct attr field stride.
Proof.
  intros Hf Hk. unfold structEntry. rewrite Hf.
  cbn [reflected ret bind app]. rewrite Hk. cbn [glType].
  now destruct (childStruct attr field stride).
Qed.

Lemma members_same_type (m0 : StructField) (ms : list StructField) :
  (forall m, In m ms -> Typ m = Typ m0) ->
  forallb (fun m => rtype_eqb (Typ m0) (Typ m)) ms = true.
Proof.
  intros H. apply forallb_forall. intros m Hm.
  rewrite (H m Hm). apply rtype_eqb_refl.
Qed.

Lemma members_not_same_type (m0 m : StructField) (ms : list StructField) :
  In m ms -> Typ m <> Typ m0 ->
  forallb (fun m => rtype_eqb (Typ m0) (Typ m)) ms = false.
Proof.
  intros Hm Hne.
  destruct (forallb _ ms) eqn:E; [| reflexivity].
  rewrite forallb_forall in E. specialize (E m Hm).
  apply rtype_eqb_eq in E. congruence.
Qed.

(** An entry that runs to its end, after entries that did. *)
Lemma SetVertexAttributes_snoc {T : Type} (t : rtype) (vs : list T)
  (pre : list VertexAttributesConfig) (a : VertexAttributesConfig)
  (calls w : list GLCall) :
  vs <> [] -> Type_.Kind t = Struct ->
  SetVertexAttributes t vs pre = (calls, Returned tt) ->
  structEntry t (int32 (Z.of_N (Type_.Size t))) a = (w, Returned tt) ->
  SetVertexAttributes t vs (pre ++ [a]) = (calls ++ w, Returned tt).
Proof.
  intros Hne Hk Hpre Ha.
  rewrite SetVertexAttributes_nonempty, Hk in Hpre |- * by assumption.
  rewrite structLoop_app, Hpre. cbn [bind forRange].
  rewrite Ha. cbn [bind ret]. now rewrite app_nil_r.
Qed.

(** An entry that panics, after entries that ran to their end. *)
Lemma SetVertexAttributes_entry_panics {T : Type} (t : rtype) (vs : list T)
  (pre post : list VertexAttributesConfig) (a : VertexAttributesConfig)
  (calls : list GLCall) (p : Panic) :
  vs <> [] -> Type_.Kind t = Struct ->
  SetVertexAttributes t vs pre = (calls, Returned tt) ->
  structEntry t (int32 (Z.of_N (Type_.Size t))) a = ([], Panicked p) ->
  SetVertexAttributes t vs (pre ++ a :: post) = (calls, Panicked p).
Proof.
  intros Hne Hk Hpre Ha.
  refine (proj1 (SetVertexAttributes_failing_entry t vs pre post a calls []
                   p Hne Hpre _)).
  now rewrite SetVertexAttributes_single.
Qed.

(** Claim C7 (amended): in a struct-backed record, a binding whose field is
    one of the fields of the record itself, not a field promoted from an
    embedded struct, and is a struct with at least one member, all members
    of one type whose kind is a supported primitive, issues one set-pointer
    call with the number of members as component count, the code of that
    primitive as type and the offset of the field in the record as byte
    offset, and then the enable call for the same index -- the number of
    members and the offset being below 2^31, the range of the [int32]
    values that are passed on. *)
Theorem nested_aggregate_binding {T : Type} (t : rtype) (vs : list T)
  (pre : list VertexAttributesConfig) (attr : VertexAttributesConfig)
  (calls : list GLCall) (field : StructField) (cn : string)
  (m0 : StructField) (ms : list StructField) (csz : N) (ty : Z) :
  vs <> [] ->
  Type_.Kind t = Struct ->
  Type_.FieldByName t (Field attr) = Some (Some field) ->
  In field (Type_.fields t) ->
  Typ field = StructOf cn (m0 :: ms) csz ->
  glType (Type_.Kind (Typ m0)) = (ty, true) ->
  (forall m, In m ms -> Typ m = Typ m0) ->
  Z.of_nat (length (m0 :: ms)) < 2 ^ 31 ->
  Z.of_N (Offset field) < 2 ^ 31 ->
  SetVertexAttributes t vs pre = (calls, Returned tt) ->
  SetVertexAttributes t vs (pre ++ [attr])
  = (calls ++
       [SetVertexAttribute (Attribute attr) (Z.of_nat (length (m0 :: ms)))
          ty (Normalized attr) (int32 (Z.of_N (Type_.Size t)))
          (Z.of_N (Offset field));
        EnableVertexAttribute (Attribute attr)],
     Returned tt).
Proof.
  intros Hne Hk Hf _ Hty Hprim Hsame Hlen Hoff Hpre.
  apply SetVertexAttributes_snoc; try assumption.
  rewrite (structEntry_child t _ attr field Hf) by (now rewrite Hty).
  assert (Hfit : int32 (Z.of_nat (length (m0 :: ms)))
                 = Z.of_nat (length (m0 :: ms)))
    by (apply int32_fits; unfold fits_int32; lia).
  rewrite (childStruct_members attr field _ cn m0 ms csz Hty)
    by (rewrite Hfit; cbn [length]; lia).
  rewrite Hprim, members_same_type by assumption. cbn [fst snd].
  rewrite Hfit, (int32_fits (Z.of_N (Offset field)))
    by (unfold fits_int32; lia).
  apply define_log.
Qed.

(** Claim C8 (amended): in a struct-backed record, a binding whose field is
    a struct fails with the empty-child panic when the struct has no member;
    with the not-a-primitive panic when the kind of the first member is no
    supported primitive, whether or not the members share a type; and with
    the not-the-same-type panic when the kind of the first member is a
    supported primitive and some member has another type than the first.
    In each case nothing is issued for that entry or for any entry after
    it.  (Fewer than 2^32 members.) *)
Theorem nested_aggregate_rejected {T : Type} (t : rtype) (vs : list T)
  (pre post : list VertexAttributesConfig) (attr : VertexAttributesConfig)
  (calls : list GLCall) (field : StructField) :
  vs <> [] ->
  Type_.Kind t = Struct ->
  Type_.FieldByName t (Field attr) = Some (Some field) ->
  SetVertexAttributes t vs pre = (calls, Returned tt) ->
  (forall cn csz,
      Typ field = StructOf cn [] csz ->
      SetVertexAttributes t vs (pre ++ attr :: post)
      = (calls, Panicked (ChildStructEmpty (Typ field) (Field attr))))
  /\ (forall cn m0 ms csz,
        Typ field = StructOf cn (m0 :: ms) csz ->
        Z.of_nat (length (m0 :: ms)) < 2 ^ 32 ->
        snd (glType (Type_.Kind (Typ m0))) = false ->
        SetVertexAttributes t vs (pre ++ attr :: post)
        = (calls, Panicked (ChildStructNotPrimitive (Field attr) (Typ m0))))
  /\ (forall cn m0 ms csz m,
        Typ field = StructOf cn (m0 :: ms) csz ->
        Z.of_nat (length (m0 :: ms)) < 2 ^ 32 ->
        snd (glType (Type_.Kind (Typ m0))) = true ->
        In m ms -> Typ m <> Typ m0 ->
        SetVertexAttributes t vs (pre ++ attr :: post)
        = (calls, Panicked (ChildStructNotSameType (Field attr) (Typ field)))).
Proof.
  intros Hne Hk Hf Hpre. split; [| split].
  - intros cn csz Hty.
    apply SetVertexAttributes_entry_panics; try assumption.
    rewrite (structEntry_child t _ attr field Hf) by (now rewrite Hty).
    unfold childStruct. rewrite Hty. reflexivity.
  - intros cn m0 ms csz Hty Hlen Hprim.
    apply SetVertexAttributes_entry_panics; try assumption.
    rewrite (structEntry_child t _ attr field Hf) by (now rewrite Hty).
    rewrite (childStruct_members attr field _ cn m0 ms csz Hty)
      by (apply int32_nonzero; cbn [length] in *; lia).
    now rewrite Hprim.
  - intros cn m0 ms csz m Hty Hlen Hprim Hm Hne'.
    apply SetVertexAttributes_entry_panics; try assumption.
    rewrite (structEntry_child t _ attr field Hf) by (now rewrite Hty).
    rewrite (childStruct_members attr field _ cn m0 ms csz Hty)
      by (apply int32_nonzero; cbn [length] in *; lia).
    now rewrite Hprim, (members_not_same_type m0 m ms Hm Hne').
Qed.

(** Claim C9: the members of a nested struct are compared by their declared
    types, not by their kinds.  A struct whose members are all of one
    supported primitive kind, one of them of another declared type than the
    first (say [float32] and a defined type over [float32]), is rejected
    with the not-the-same-type panic, and nothing is issued for the entry.
    (Fewer than 2^32 members, as every declared struct type has.) *)
Theorem member_types_compared_by_identity {T : Type} (t : rtype)
  (vs : list T) (pre post : list VertexAttributesConfig)
  (attr : VertexAttributesConfig) (calls : list GLCall)
  (field : StructField) (cn : string) (m0 m : StructField)
  (ms : list StructField) (csz : N) :
  vs <> [] ->
  Type_.Kind t = Struct ->
  Type_.FieldByName t (Field attr) = Some (Some field) ->
  SetVertexAttributes t vs pre = (calls, Returned tt) ->
  Typ field = StructOf cn (m0 :: ms) csz ->
  Z.of_nat (length (m0 :: ms)) < 2 ^ 32 ->
  snd (glType (Type_.Kind (Typ m0))) = true ->
  (forall m', In m' ms -> Type_.Kind (Typ m') = Type_.Kind (Typ m0)) ->
  In m ms ->
  Typ m <> Typ m0 ->
  SetVertexAttributes t vs (pre ++ attr :: post)
  = (calls, Panicked (ChildStructNotSameType (Field attr) (Typ field))).
Proof.
  intros Hne Hk Hf Hpre Hty Hlen Hprim _ Hm Hne'.
  apply SetVertexAttributes_entry_panics; try assumption.
  rewrite (structEntry_child t _ attr field Hf) by (now rewrite Hty).
  rewrite (childStruct_members attr field _ cn m0 ms csz Hty)
    by (apply int32_nonzero; cbn [length] in *; lia).
  now rewrite Hprim, (members_not_same_type m0 m ms Hm Hne').
Qed.

End Call.

(** ** Further properties of the call *)

Section More.

Context {dt : DataTypes}.

(** *** Fields of primitive and of array type *)

Lemma structEntry_primitive (t : rtype) (stride : Z)
  (attr : VertexAttributesConfig) (field : StructField) (ty : Z) :
  Type_.FieldByName t (Field attr) = Some (Some field) ->
  glType (Type_.Kind (Typ field)) = (ty, true) ->
  structEntry t stride attr
  = define attr 1 ty stride (int32 (Z.of_N (Offset field))).
Proof.
  intros Hf Hg. unfold structEntry. rewrite Hf.
  cbn [reflected ret bind app]. rewrite Hg.
  now destruct (define attr 1 ty stride _).
Qed.

Lemma structEntry_array (t : rtype) (stride : Z)
  (attr : VertexAttributesConfig) (field : StructField) (an : string)
  (len : N) (e : rtype) (asz : N) :
  Type_.FieldByName t (Field attr) = Some (Some field) ->
  Typ field = ArrayOf an len e asz ->
  structEntry t stride attr
  = if snd (glType (Type_.Kind e))
    then define attr (int32 (Z.of_N len)) (fst (glType (Type_.Kind e)))
           stride (int32 (Z.of_N (Offset field)))
    else ([], Panicked (FieldArrayNotPrimitive (Type_.Kind e) (Field attr))).
Proof.
  intros Hf Hty. unfold structEntry. rewrite Hf.
  cbn [reflected ret bind app]. rewrite Hty.
  cbn [Type_.Kind glType Type_.Elem Type_.Len reflected ret bind app].
  destruct (glType (Type_.Kind e)) as [ty ok]. cbn [fst snd].
  destruct ok; reflexivity.
Qed.

(** X1: in a struct-backed record, a binding whose field is of a supported
    primitive kind -- a predeclared type or a type defined over one --
    issues one set-pointer call with component count 1, the code of that
    kind and the offset of the field, and then the enable call for the same
    index (the offset being below 2^31). *)
Theorem scalar_field_binding {T : Type} (t : rtype) (vs : list T)
  (pre : list VertexAttributesConfig) (attr : VertexAttributesConfig)
  (calls : list GLCall) (field : StructField) (ty : Z) :
  vs <> [] ->
  Type_.Kind t = Struct ->
  Type_.FieldByName t (Field attr) = Some (Some field) ->
  glType (Type_.Kind (Typ field)) = (ty, true) ->
  Z.of_N (Offset field) < 2 ^ 31 ->
  SetVertexAttributes t vs pre = (calls, Returned tt) ->
  SetVertexAttributes t vs (pre ++ [attr])
  = (calls ++
       [SetVertexAttribute (Attribute attr) 1 ty (Normalized attr)
          (int32 (Z.of_N (Type_.Size t))) (Z.of_N (Offset field));
        EnableVertexAttribute (Attribute attr)],
     Returned tt).
Proof.
  intros Hne Hk Hf Hg Hoff Hpre.
  apply SetVertexAttributes_snoc; try assumption.
  rewrite (structEntry_primitive t _ attr field ty Hf Hg).
  rewrite (int32_fits (Z.of_N (Offset field))) by (unfold fits_int32; lia).
  apply define_log.
Qed.

(** X2: in a struct-backed record, a binding whose field is an array with an
    element of a supported primitive kind issues one set-pointer call with
    the array length as component count, the code of the element kind and
    the offset of the field, and then the enable call for the same index
    (length and offset being below 2^31). *)
Theorem array_field_binding {T : Type} (t : rtype) (vs : list T)
  (pre : list VertexAttributesConfig) (attr : VertexAttributesConfig)
  (calls : list GLCall) (field : StructField) (an : string) (len : N)
  (e : rtype) (asz : N) (ty : Z) :
  vs <> [] ->
  Type_.Kind t = Struct ->
  Type_.FieldByName t (Field attr) = Some (Some field) ->
  Typ field = ArrayOf an len e asz ->
  glType (Type_.Kind e) = (ty, true) ->
  Z.of_N len < 2 ^ 31 ->
  Z.of_N (Offset field) < 2 ^ 31 ->
  SetVertexAttributes t vs pre = (calls, Returned tt) ->
  SetVertexAttributes t vs (pre ++ [attr])
  = (calls ++
       [SetVertexAttribute (Attribute attr) (Z.of_N len) ty (Normalized attr)
          (int32 (Z.of_N (Type_.Size t))) (Z.of_N (Offset field));
        EnableVertexAttribute (Attribute attr)],
     Returned tt).
Proof.
  intros Hne Hk Hf Hty Hg Hlen Hoff Hpre.
  apply SetVertexAttributes_snoc; try assumption.
  rewrite (structEntry_array t _ attr field an len e asz Hf Hty), Hg.
  cbn [fst snd].
  rewrite (int32_fits (Z.of_N len)), (int32_fits (Z.of_N (Offset field)))
    by (unfold fits_int32; lia).
  apply define_log.
Qed.

(** X3: in a struct-backed record, a binding whose field is an array with an
    element of no supported primitive kind (an array of [int], of arrays, of
    structs) fails with the array-of-primitives panic, which names the kind
    of the element and the field; nothing is issued for that entry or for
    any entry after it. *)
Theorem array_field_rejected {T : Type} (t : rtype) (vs : list T)
  (pre post : list VertexAttributesConfig) (attr : VertexAttributesConfig)
  (calls : list GLCall) (field : StructField) (an : string) (len : N)
  (e : rtype) (asz : N) :
  vs <> [] ->
  Type_.Kind t = Struct ->
  Type_.FieldByName t (Field attr) = Some (Some field) ->
  Typ field = ArrayOf an len e asz ->
  snd (glType (Type_.Kind e)) = false ->
  SetVertexAttributes t vs pre = (calls, Returned tt) ->
  SetVertexAttributes t vs (pre ++ attr :: post)
  = (calls, Panicked (FieldArrayNotPrimitive (Type_.Kind e) (Field attr))).
Proof.
  intros Hne Hk Hf Hty Hg Hpre.
  apply SetVertexAttributes_entry_panics; try assumption.
  now rewrite (structEntry_array t _ attr field an len e asz Hf Hty), Hg.
Qed.

(** X4: a record type that is refused is refused before any binding is
    looked at, whatever the bindings are, the empty list among them, and
    with no GPU call: a type that is neither an array nor a struct with the
    unsupported-types panic, an array with an element of no supported
    primitive kind with the backing-type panic. *)
Theorem record_refused_before_bindings {T : Type} (t : rtype) (vs : list T)
  (attrs : list VertexAttributesConfig) :
  vs <> [] ->
  (Type_.Kind t <> Array -> Type_.Kind t <> Struct ->
   SetVertexAttributes t vs attrs = ([], Panicked UnsupportedVertexType))
  /\ (forall name len e size,
        t = ArrayOf name len e size ->
        snd (glType (Type_.Kind e)) = false ->
        SetVertexAttributes t vs attrs
        = ([], Panicked (ArrayBackingNotPrimitive e))).
Proof.
  intros Hne. split.
  - intros Ha Hs. rewrite SetVertexAttributes_nonempty by assumption.
    destruct (Type_.Kind t); try reflexivity; congruence.
  - intros name len e size -> Hg.
    rewrite SetVertexAttributes_nonempty by assumption.
    cbn [Type_.Kind]. now rewrite arrayBacked_array, Hg.
Qed.

(** *** Struct-backed runs, entry by entry *)

(** X5: the run of a struct-backed record over a list of bindings in two
    parts is the run over the first part followed, if that one returns, by
    the run over the second: an entry does the same wherever it stands. *)
Theorem struct_backed_run_app {T : Type} (t : rtype) (vs : list T)
  (xs ys : list VertexAttributesConfig) :
  vs <> [] ->
  Type_.Kind t = Struct ->
  SetVertexAttributes t vs (xs ++ ys)
  = bind (SetVertexAttributes t vs xs)
      (fun _ => SetVertexAttributes t vs ys).
Proof.
  intros Hne Hk. rewrite !SetVertexAttributes_nonempty by assumption.
  rewrite Hk. apply structLoop_app.
Qed.

Lemma structLoop_cons (f : VertexAttributesConfig -> GL unit)
  (a : VertexAttributesConfig) (l : list VertexAttributesConfig) :
  forRange (fun _ x => f x) 0 (a :: l)
  = bind (f a) (fun _ => forRange (fun _ x => f x) 0 l).
Proof.
  cbn [forRange]. now rewrite (forRange_index f l (0 + 1) 0).
Qed.

Lemma structLoop_returns (f : VertexAttributesConfig -> GL unit)
  (l : list VertexAttributesConfig) :
  snd (forRange (fun _ x => f x) 0 l) = Returned tt
  <-> Forall (fun a => snd (f a) = Returned tt) l.
Proof.
  induction l as [| a l IH].
  - split; [constructor | reflexivity].
  - rewrite structLoop_cons. split.
    + intros H. destruct (f a) as [w [[] | p]] eqn:Ha; [| discriminate].
      cbn [bind] in H.
      destruct (forRange (fun _ x => f x) 0 l) as [w' r]. cbn [snd] in *.
      constructor; [now rewrite Ha | now apply IH].
    + intros H. inversion H as [| ? ? Ha Hl]; subst.
      destruct (f a) as [w [[] | p]]; [| discriminate].
      cbn [bind]. apply IH in Hl.
      now destruct (forRange (fun _ x => f x) 0 l).
Qed.

(** X6: a struct-backed record takes a list of bindings -- the call
    returns -- exactly when it takes each of them alone. *)
Theorem struct_backed_returns_iff_entries {T : Type} (t : rtype)
  (vs : list T) (attrs : list VertexAttributesConfig) :
  vs <> [] ->
  Type_.Kind t = Struct ->
  snd (SetVertexAttributes t vs attrs) = Returned tt
  <-> Forall (fun a => snd (SetVertexAttributes t vs [a]) = Returned tt)
        attrs.
Proof.
  intros Hne Hk. rewrite SetVertexAttributes_nonempty, Hk by assumption.
  rewrite structLoop_returns.
  split; apply Forall_impl; intros a;
    now rewrite SetVertexAttributes_single.
Qed.

(** *** What a run logs *)

Lemma childStruct_descr (attr : VertexAttributesConfig)
  (field : StructField) (stride : Z) :
  fst (childStruct attr field stride) = []
  \/ (exists c k o,
        snd (glType k) = true
        /\ childStruct attr field stride
           = define attr c (fst (glType k)) stride o).
Proof.
  destruct (Typ field) as [n k s | n l e s | cn [| m0 ms] csz] eqn:Hty.
  1-3: left; unfold childStruct; rewrite Hty; reflexivity.
  destruct (Z.eq_dec (int32 (Z.of_nat (length (m0 :: ms)))) 0) as [E | E].
  - left. unfold childStruct. rewrite Hty.
    cbn [Type_.NumField reflected ret bind app].
    apply Z.eqb_eq in E. now rewrite E.
  - rewrite (childStruct_members _ _ _ _ _ _ _ Hty E).
    destruct (snd (glType (Type_.Kind (Typ m0)))) eqn:Hok;
      [| left; reflexivity].
    destruct (forallb _ ms); [| left; reflexivity].
    right. exists (int32 (Z.of_nat (length (m0 :: ms)))),
      (Type_.Kind (Typ m0)), (int32 (Z.of_N (Offset field))).
    split; [exact Hok | reflexivity].
Qed.

(** One entry of a struct-backed record logs nothing, or the two calls of
    one descriptor whose type is a code of [glType]. *)
Lemma structEntry_descr (t : rtype) (stride : Z)
  (a : VertexAttributesConfig) :
  fst (structEntry t stride a) = []
  \/ (exists c k o,
        snd (glType k) = true
        /\ fst (structEntry t stride a)
           = [SetVertexAttribute (Attribute a) c (fst (glType k))
                (Normalized a) stride o;
              EnableVertexAttribute (Attribute a)]).
Proof.
  destruct (Type_.FieldByName t (Field a)) as [[field |] |] eqn:Hf;
    [| left; unfold structEntry; rewrite Hf; reflexivity
     | left; unfold structEntry; rewrite Hf; reflexivity].
  destruct (glType (Type_.Kind (Typ field))) as [ty ok] eqn:Hg.
  destruct ok.
  { right. exists 1, (Type_.Kind (Typ field)), (int32 (Z.of_N (Offset field))).
    rewrite (structEntry_primitive t stride a field ty Hf Hg), Hg.
    split; reflexivity. }
  destruct (Typ field) as [n k s | n l e s | cn fs csz] eqn:Hty.
  - (* a type of another kind, or a descriptor of kind Array or Struct
       that is no array and no struct *)
    unfold structEntry. rewrite Hf. cbn [reflected ret bind app].
    rewrite Hty, Hg. cbn [Type_.Kind].
    destruct k; try (left; reflexivity).
    left. unfold childStruct. rewrite Hty. reflexivity.
  - rewrite (structEntry_array t stride a field n l e s Hf Hty).
    destruct (snd (glType (Type_.Kind e))) eqn:Hok; [| left; reflexivity].
    right. exists (int32 (Z.of_N l)), (Type_.Kind e),
      (int32 (Z.of_N (Offset field))).
    split; [exact Hok | reflexivity].
  - rewrite (structEntry_child t stride a field Hf)
      by (now rewrite Hty).
    destruct (childStruct_descr a field stride)
      as [H | (c & k & o & Hok & H)]; [left; exact H |].
    right. exists c, k, o. split; [exact Hok |]. now rewrite H.
Qed.

(** The shape of every call: either it ends before its loop, with no GPU
    call, whatever the bindings; or it is a loop over the bindings whose
    every round logs nothing or the two calls of one descriptor. *)
Lemma SetVertexAttributes_shape {T : Type} (t : rtype) (vs : list T) :
  (exists r, forall attrs, SetVertexAttributes t vs attrs = ([], r))
  \/ (exists body,
        (forall attrs, SetVertexAttributes t vs attrs = forRange body 0 attrs)
        /\ forall i a,
             fst (body i a) = []
             \/ (exists c k o,
                   snd (glType k) = true
                   /\ fst (body i a)
                      = [SetVertexAttribute (Attribute a) c (fst (glType k))
                           (Normalized a) (int32 (Z.of_N (Type_.Size t))) o;
                         EnableVertexAttribute (Attribute a)])).
Proof.
  destruct vs as [| v vs].
  { left. exists (Returned tt). reflexivity. }
  assert (Hne : v :: vs <> []) by discriminate.
  destruct (Type_.Kind t) eqn:Hk;
    try (left; exists (Panicked UnsupportedVertexType); intros attrs;
         rewrite SetVertexAttributes_nonempty, Hk by assumption;
         reflexivity).
  - (* Array *)
    destruct t as [n k s | n l e s | n fs s]; [| | discriminate].
    + left. exists (Panicked ReflectPanic). intros attrs.
      rewrite SetVertexAttributes_nonempty, Hk by assumption. reflexivity.
    + destruct (snd (glType (Type_.Kind e))) eqn:Hok.
      * right.
        exists (fun i attr =>
                  define attr (int32 (Z.of_N l)) (fst (glType (Type_.Kind e)))
                    (int32 (Z.of_N (Type_.Size (ArrayOf n l e s))))
                    (mul32 (int32 i) (int32 (Z.of_N (Type_.Size e))))).
        split.
        -- intros attrs.
           rewrite SetVertexAttributes_nonempty, Hk by assumption.
           now rewrite arrayBacked_array, Hok.
        -- intros i a. right.
           exists (int32 (Z.of_N l)), (Type_.Kind e),
             (mul32 (int32 i) (int32 (Z.of_N (Type_.Size e)))).
           split; [exact Hok | reflexivity].
      * left. exists (Panicked (ArrayBackingNotPrimitive e)). intros attrs.
        rewrite SetVertexAttributes_nonempty, Hk by assumption.
        now rewrite arrayBacked_array, Hok.
  - (* Struct *)
    right.
    exists (fun _ attr => structEntry t (int32 (Z.of_N (Type_.Size t))) attr).
    split.
    + intros attrs. now rewrite SetVertexAttributes_nonempty, Hk.
    + intros _ a. apply structEntry_descr.
Qed.

Lemma paired_app (l1 : list GLCall) :
  forall l2, paired l1 = true -> paired l2 = true ->
             paired (l1 ++ l2) = true.
Proof.
  revert l1. fix IH 1.
  intros [| [i c ty n s o | i] [| [i' c' ty' n' s' o' | j] rest]] l2 H1 H2;
    cbn [paired app] in *; try discriminate; [assumption |].
  apply andb_true_iff in H1. destruct H1 as [Hi Hr].
  apply andb_true_iff. split; [assumption | now apply IH].
Qed.

Lemma forRange_log_paired {A} (body : Z -> A -> GL unit) :
  (forall i x, paired (fst (body i x)) = true) ->
  forall xs i, paired (fst (forRange body i xs)) = true.
Proof.
  intros Hb. induction xs as [| x xs IH]; intros i; simpl; [reflexivity |].
  specialize (Hb i x). specialize (IH (i + 1)).
  destruct (body i x) as [w [[] | q]]; simpl in *; [| assumption].
  destruct (forRange body (i + 1) xs) as [w' r]. simpl in *.
  now apply paired_app.
Qed.

Lemma forRange_log_length {A} (body : Z -> A -> GL unit) :
  (forall i x, (length (fst (body i x)) <= 2)%nat) ->
  forall xs i,
    (length (fst (forRange body i xs)) <= 2 * length xs)%nat.
Proof.
  intros Hb. induction xs as [| x xs IH]; intros i; simpl; [lia |].
  specialize (Hb i x). specialize (IH (i + 1)).
  destruct (body i x) as [w [[] | q]]; simpl in *; [| lia].
  destruct (forRange body (i + 1) xs) as [w' r]. simpl in *.
  rewrite length_app. lia.
Qed.

Lemma forRange_log_In {A} (body : Z -> A -> GL unit) (c : GLCall) :
  forall xs i,
    In c (fst (forRange body i xs)) ->
    exists j x, In x xs /\ In c (fst (body j x)).
Proof.
  induction xs as [| x xs IH]; intros i; simpl; [tauto |].
  destruct (body i x) as [w [[] | q]] eqn:Hx; simpl.
  - specialize (IH (i + 1)).
    destruct (forRange body (i + 1) xs) as [w' r]. simpl in *.
    intros H. apply in_app_or in H. destruct H as [H | H].
    + exists i, x. rewrite Hx. auto.
    + destruct (IH H) as (j & y & Hy & Hc). exists j, y. auto.
  - intros H. exists i, x. rewrite Hx. auto.
Qed.

(** X7: every log, of a call that returns or of one that panics, is made of
    set-pointer calls each followed at once by the enable call for the same
    index, and holds at most two calls for each binding. *)
Theorem calls_come_in_pairs {T : Type} (t : rtype) (vs : list T)
  (attrs : list VertexAttributesConfig) :
  paired (fst (SetVertexAttributes t vs attrs)) = true
  /\ (length (fst (SetVertexAttributes t vs attrs)) <= 2 * length attrs)%nat.
Proof.
  destruct (SetVertexAttributes_shape t vs) as [[r Hr] | (body & Hrun & Hb)].
  - rewrite Hr. cbn. split; [reflexivity | lia].
  - rewrite Hrun. split.
    + apply forRange_log_paired. intros i a.
      destruct (Hb i a) as [-> | (c & k & o & _ & ->)]; cbn [paired];
        [reflexivity |].
      now rewrite Z.eqb_refl.
    + apply forRange_log_length. intros i a.
      destruct (Hb i a) as [-> | (c & k & o & _ & ->)]; cbn [length]; lia.
Qed.

(** X8: every logged call belongs to a binding of the request: it has the
    attribute index of that binding and, if it is a set-pointer call, its
    normalized flag as given. *)
Theorem call_from_binding {T : Type} (t : rtype) (vs : list T)
  (attrs : list VertexAttributesConfig) (c : GLCall) :
  In c (fst (SetVertexAttributes t vs attrs)) ->
  exists a,
    In a attrs
    /\ indexOf c = Attribute a
    /\ (forall n, normalizedOf c = Some n -> n = Normalized a).
Proof.
  destruct (SetVertexAttributes_shape t vs) as [[r Hr] | (body & Hrun & Hb)].
  - rewrite Hr. cbn. tauto.
  - rewrite Hrun. intros Hin.
    apply forRange_log_In in Hin. destruct Hin as (j & a & Ha & Hc).
    exists a. split; [assumption |].
    destruct (Hb j a) as [E | (cc & k & o & _ & E)]; rewrite E in Hc.
    + destruct Hc.
    + destruct Hc as [<- | [<- | []]]; cbn; split; congruence.
Qed.

(** X9: the data type of every logged set-pointer call is a code that
    [glType] gives for a supported kind: the not-found value of [glType]
    never reaches the GPU. *)
Theorem descriptor_type_supported {T : Type} (t : rtype) (vs : list T)
  (attrs : list VertexAttributesConfig) (c : GLCall) (ty : Z) :
  In c (fst (SetVertexAttributes t vs attrs)) ->
  typeOf c = Some ty ->
  exists k, glType k = (ty, true).
Proof.
  destruct (SetVertexAttributes_shape t vs) as [[r Hr] | (body & Hrun & Hb)].
  - rewrite Hr. cbn. tauto.
  - rewrite Hrun. intros Hin Hty.
    apply forRange_log_In in Hin. destruct Hin as (j & a & Ha & Hc).
    destruct (Hb j a) as [E | (cc & k & o & Hok & E)]; rewrite E in Hc.
    + destruct Hc.
    + destruct Hc as [<- | [<- | []]]; cbn in Hty; [| discriminate].
      injection Hty as <-. exists k.
      destruct (glType k) as [x ok]. cbn in *. now subst.
Qed.

Lemma bind_log_prefix {A B} (m : GL A) (f : A -> GL B) :
  exists rest, fst (bind m f) = fst m ++ rest.
Proof.
  destruct m as [w [a | p]]; cbn [bind fst].
  - destruct (f a) as [w' r]. now exists w'.
  - exists []. now rewrite app_nil_r.
Qed.

(** X10: bindings added at the end of a request leave the calls issued for
    the bindings before them as they are: the log of the longer request
    starts with the log of the shorter. *)
Theorem earlier_calls_unaffected {T : Type} (t : rtype) (vs : list T)
  (xs ys : list VertexAttributesConfig) :
  exists rest,
    fst (SetVertexAttributes t vs (xs ++ ys))
    = fst (SetVertexAttributes t vs xs) ++ rest.
Proof.
  destruct (SetVertexAttributes_shape t vs) as [[r Hr] | (body & Hrun & _)].
  - rewrite !Hr. now exists [].
  - rewrite !Hrun, forRange_app. apply bind_log_prefix.
Qed.

(** *** Array-backed records and field names *)

Lemma defineLoop_names (c ty s : Z) (off : Z -> Z)
  (xs : list VertexAttributesConfig) :
  forall ys i,
    map Attribute xs = map Attribute ys ->
    map Normalized xs = map Normalized ys ->
    forRange (fun i a => define a c ty s (off i)) i xs
    = forRange (fun i a => define a c ty s (off i)) i ys.
Proof.
  induction xs as [| x xs IH]; intros [| y ys] i Ha Hn;
    try discriminate; [reflexivity |].
  cbn [map] in Ha, Hn. injection Ha as Ha1 Ha. injection Hn as Hn1 Hn.
  cbn [forRange]. rewrite (IH ys (i + 1) Ha Hn).
  unfold define. now rewrite Ha1, Hn1.
Qed.

(** X11: for a record whose type is of kind [Array] the field names of the
    bindings are not read: two requests with the same attribute indices and
    normalized flags, in the same order, give the same run. *)
Theorem array_backed_ignores_field_names {T : Type} (t : rtype)
  (vs : list T) (attrs attrs' : list VertexAttributesConfig) :
  Type_.Kind t = Array ->
  map Attribute attrs = map Attribute attrs' ->
  map Normalized attrs = map Normalized attrs' ->
  SetVertexAttributes t vs attrs = SetVertexAttributes t vs attrs'.
Proof.
  intros Hk Ha Hn.
  destruct vs as [| v vs]; [reflexivity |].
  rewrite !SetVertexAttributes_nonempty, Hk by discriminate.
  destruct t as [n k s | n l e s | n fs s]; [reflexivity | | discriminate].
  rewrite !arrayBacked_array.
  destruct (snd (glType (Type_.Kind e))); [| reflexivity].
  exact (defineLoop_names _ _ _
           (fun i => mul32 (int32 i) (int32 (Z.of_N (Type_.Size e))))
           attrs attrs' 0 Ha Hn).
Qed.

(** *** The order of the bindings of a struct-backed record *)

Lemma structLoop_permutation (f : VertexAttributesConfig -> GL unit)
  (l l' : list VertexAttributesConfig) :
  Permutation l l' ->
  forall calls,
    forRange (fun _ x => f x) 0 l = (calls, Returned tt) ->
    exists calls',
      forRange (fun _ x => f x) 0 l' = (calls', Returned tt)
      /\ Permutation calls calls'.
Proof.
  induction 1 as [| x l l' Hp IH | x y l | l l' l'' _ IH1 _ IH2];
    intros calls H.
  - exists calls. split; [assumption | apply Permutation_refl].
  - rewrite structLoop_cons in H |- *.
    destruct (f x) as [w [[] | p]]; [| discriminate]. cbn [bind] in *.
    destruct (forRange (fun _ x => f x) 0 l) as [w1 r1].
    injection H as <- ->.
    destruct (IH w1 eq_refl) as (w1' & -> & Hw).
    exists (w ++ w1'). split; [reflexivity |].
    now apply Permutation_app_head.
  - rewrite !structLoop_cons in H |- *.
    destruct (f y) as [wy [[] | p]]; [| discriminate]. cbn [bind] in H.
    destruct (f x) as [wx [[] | p]]; [| discriminate]. cbn [bind] in *.
    destruct (forRange (fun _ x => f x) 0 l) as [w r].
    injection H as <- ->.
    exists (wx ++ wy ++ w). split; [reflexivity |].
    apply Permutation_app_swap_app.
  - destruct (IH1 calls H) as (c1 & H1 & P1).
    destruct (IH2 c1 H1) as (c2 & H2 & P2).
    exists c2. split; [assumption | now apply Permutation_trans with c1].
Qed.

(** X12: if a struct-backed record takes a request, it takes the same
    bindings in any other order, and issues the same calls, in another
    order. *)
Theorem struct_backed_permutation {T : Type} (t : rtype) (vs : list T)
  (attrs attrs' : list VertexAttributesConfig) (calls : list GLCall) :
  vs <> [] ->
  Type_.Kind t = Struct ->
  Permutation attrs attrs' ->
  SetVertexAttributes t vs attrs = (calls, Returned tt) ->
  exists calls',
    SetVertexAttributes t vs attrs' = (calls', Returned tt)
    /\ Permutation calls calls'.
Proof.
  intros Hne Hk Hp. rewrite !SetVertexAttributes_nonempty, Hk by assumption.
  now apply structLoop_permutation.
Qed.

(** *** No panic inside package reflect *)

Lemma wellKinded_array (t : rtype) :
  wellKinded t = true -> Type_.Kind t = Array ->
  exists n l e s, t = ArrayOf n l e s.
Proof.
  destruct t as [n k s | n l e s | n fs s]; cbn; intros Hw Hk.
  - subst k. discriminate.
  - now exists n, l, e, s.
  - discriminate.
Qed.

Lemma wellKinded_struct (t : rtype) :
  wellKinded t = true -> Type_.Kind t = Struct ->
  exists n fs s,
    t = StructOf n fs s
    /\ forall f, In f fs -> wellKinded (Typ f) = true.
Proof.
  destruct t as [n k s | n l e s | n fs s]; cbn; intros Hw Hk.
  - subst k. discriminate.
  - discriminate.
  - exists n, fs, s. split; [reflexivity |].
    now apply forallb_forall.
Qed.

Lemma wellKinded_fields (t : rtype) :
  wellKinded t = true ->
  Forall (fun f => wellKinded (Typ f) = true) (Type_.fields t).
Proof.
  destruct t as [n k s | n l e s | n fs s]; cbn [Type_.fields];
    intros Hw; try constructor.
  apply Forall_forall. now apply forallb_forall.
Qed.

Lemma childStruct_no_reflect (attr : VertexAttributesConfig)
  (field : StructField) (stride : Z) :
  wellKinded (Typ field) = true ->
  Type_.Kind (Typ field) = Struct ->
  snd (childStruct attr field stride) <> Panicked ReflectPanic.
Proof.
  intros Hw Hk.
  destruct (wellKinded_struct _ Hw Hk) as (cn & fs & csz & Hty & _).
  destruct fs as [| m0 ms].
  { unfold childStruct. rewrite Hty. discriminate. }
  destruct (Z.eq_dec (int32 (Z.of_nat (length (m0 :: ms)))) 0) as [E | E].
  - unfold childStruct. rewrite Hty.
    cbn [Type_.NumField reflected ret bind app].
    apply Z.eqb_eq in E. rewrite E. discriminate.
  - rewrite (childStruct_members _ _ _ _ _ _ _ Hty E).
    destruct (snd (glType _)); [| discriminate].
    destruct (forallb _ ms); discriminate.
Qed.

Lemma structEntry_no_reflect (t : rtype) (stride : Z)
  (a : VertexAttributesConfig) :
  wellKinded t = true ->
  Type_.Kind t = Struct ->
  snd (structEntry t stride a) <> Panicked ReflectPanic.
Proof.
  intros Hw Hk.
  destruct (wellKinded_struct _ Hw Hk) as (n & fs & s & -> & Hfs).
  destruct (FieldByName_struct n fs s (Field a)) as [[field |] Hf].
  2: { unfold structEntry. rewrite Hf. discriminate. }
  assert (Hwf : wellKinded (Typ field) = true).
  { apply (FieldByName_inv (fun x => wellKinded x = true) _ _ _
             wellKinded_fields Hw Hf). }
  destruct (glType (Type_.Kind (Typ field))) as [ty ok] eqn:Hg.
  destruct ok.
  { rewrite (structEntry_primitive _ stride a field ty Hf Hg). discriminate. }
  destruct (Kind_eq_dec (Type_.Kind (Typ field)) Array) as [Ha | Ha].
  { destruct (wellKinded_array _ Hwf Ha) as (an & l & e & asz & Hty).
    rewrite (structEntry_array _ stride a field an l e asz Hf Hty).
    destruct (snd (glType _)); discriminate. }
  destruct (Kind_eq_dec (Type_.Kind (Typ field)) Struct) as [Hs | Hs].
  { rewrite (structEntry_child _ stride a field Hf Hs).
    now apply childStruct_no_reflect. }
  rewrite (structEntry_other_kind _ stride a field Hf); try assumption.
  - discriminate.
  - now rewrite Hg.
Qed.

(** X13: on the descriptor of a type as the compiler makes it, the call
    never panics inside package reflect: [Elem], [Len], [NumField], [Field]
    and [FieldByName] are called on types of the right kind and with
    indices in range only, so every failure is one of the panics of the
    helper itself. *)
Theorem no_reflect_panic {T : Type} (t : rtype) (vs : list T)
  (attrs : list VertexAttributesConfig) :
  wellKinded t = true ->
  snd (SetVertexAttributes t vs attrs) <> Panicked ReflectPanic.
Proof.
  intros Hw.
  destruct vs as [| v vs]; [discriminate |].
  rewrite SetVertexAttributes_nonempty by discriminate.
  destruct (Type_.Kind t) eqn:Hk; try discriminate.
  - destruct (wellKinded_array _ Hw Hk) as (n & l & e & s & ->).
    rewrite arrayBacked_array.
    destruct (snd (glType (Type_.Kind e))); [| discriminate].
    rewrite (defineLoop_returns
               (fun i _ => (int32 (Z.of_N l), fst (glType (Type_.Kind e)),
                            int32 (Z.of_N (Type_.Size (ArrayOf n l e s))),
                            mul32 (int32 i) (int32 (Z.of_N (Type_.Size e)))))
               attrs 0).
    discriminate.
  - destruct (forRange _ 0 attrs) as [calls r] eqn:Hrun. cbn [snd].
    intros ->. apply forRange_panicked in Hrun.
    destruct Hrun as (pre & a & post & c1 & c2 & _ & _ & Ha & _).
    apply (structEntry_no_reflect t (int32 (Z.of_N (Type_.Size t))) a Hw Hk).
    now rewrite Ha.
Qed.

End More.

(** ** Runs of the model *)

Section Runs.

Import Examples.
Local Open Scope string_scope.

Lemma supported_kinds_not_seven :
  length (@supported_kinds OpenGL) = 8%nat
  /\ length (@supported_kinds OpenGL) <> 7%nat.
Proof. split; [reflexivity | discriminate]. Qed.

Lemma vertices_contents_irrelevant_witness :
  @SetVertexAttributes OpenGL Z TriangleVertex [1; 2; 3]
    triangleVertexAttributesConfig
  = @SetVertexAttributes OpenGL Z TriangleVertex [7]
      triangleVertexAttributesConfig.
Proof.
  apply (@vertices_contents_irrelevant OpenGL Z); discriminate.
Defined.

Lemma failure_aborts_at_detection_witness :
  @SetVertexAttributes OpenGL unit TriangleVertex [tt]
    ([mkConfig "Pos" 0 false]
       ++ mkConfig "Nope" 1 false :: [mkConfig "Tex" 2 false])%list
  = ([SetVertexAttribute 0 3 5126 false 36 0; EnableVertexAttribute 0],
     Panicked (NoSuchField TriangleVertex "Nope")).
Proof.
  apply (proj2 (proj2 (@failure_aborts_at_detection OpenGL unit
                         TriangleVertex [tt] ltac:(discriminate))));
    reflexivity.
Defined.

Lemma stride_invariant_witness :
  36 = int32 (Z.of_N (Type_.Size TriangleVertex))
  /\ (Z.of_N (Type_.Size TriangleVertex) < 2 ^ 31
      -> 36 = Z.of_N (Type_.Size TriangleVertex)).
Proof.
  apply (@stride_invariant OpenGL unit TriangleVertex [tt]
           triangleVertexAttributesConfig
           (SetVertexAttribute 1 2 5126 false 36 12) 36).
  - simpl. tauto.
  - reflexivity.
Defined.

Lemma stride_truncated :
  @SetVertexAttributes OpenGL unit TailPaddedVertex [tt]
    [mkConfig "A" 0 false]
  = ([SetVertexAttribute 0 1 5126 false (-2147483644) 0;
      EnableVertexAttribute 0], Returned tt)
  /\ Z.of_N (Type_.Size TailPaddedVertex) = 2147483652
  /\ -2147483644 <> 2147483652.
Proof. repeat split. discriminate. Qed.

Lemma array_backed_bindings_witness :
  exists calls,
    @SetVertexAttributes OpenGL unit (ArrayOf "" 2 float32T 8) [tt]
      [mkConfig "" 0 false; mkConfig "" 1 true]
    = (calls, Returned tt)
    /\ length calls = 4%nat
    /\ forall i a,
         nth_error [mkConfig "" 0 false; mkConfig "" 1 true] i = Some a ->
         nth_error calls (2 * i)
         = Some (SetVertexAttribute (Attribute a) 2 5126 (Normalized a)
                   (int32 8) (Z.of_nat i * 4))
         /\ nth_error calls (2 * i + 1)
            = Some (EnableVertexAttribute (Attribute a)).
Proof.
  apply (@array_backed_bindings OpenGL unit [tt] "" 2 float32T 8
           [mkConfig "" 0 false; mkConfig "" 1 true] 5126).
  - discriminate.
  - reflexivity.
  - reflexivity.
  - reflexivity.
Defined.

Lemma array_length_truncated :
  @SetVertexAttributes OpenGL unit HugeArray [tt] [mkConfig "" 0 false]
  = ([SetVertexAttribute 0 (-2147483648) 5120 false (-2147483648) 0;
      EnableVertexAttribute 0], Returned tt)
  /\ Type_.Len HugeArray = Some 2147483648
  /\ -2147483648 <> 2147483648.
Proof. repeat split. discriminate. Qed.

Lemma nested_aggregate_binding_witness :
  @SetVertexAttributes OpenGL unit TriangleVertex [tt]
    ([mkConfig "Pos" 0 false] ++ [mkConfig "Tex" 1 false])%list
  = (([SetVertexAttribute 0 3 5126 false 36 0; EnableVertexAttribute 0]
        ++ [SetVertexAttribute 1 2 5126 false 36 12;
            EnableVertexAttribute 1])%list,
     Returned tt).
Proof.
  apply (@nested_aggregate_binding OpenGL unit TriangleVertex [tt]
           [mkConfig "Pos" 0 false] (mkConfig "Tex" 1 false) _
           (mkStructField "Tex" Vector2 12) "rl.Vector2"
           (mkStructField "X" float32T 0) [mkStructField "Y" float32T 4]
           8 5126).
  - discriminate.
  - reflexivity.
  - reflexivity.
  - simpl. tauto.
  - reflexivity.
  - reflexivity.
  - intros m [<- | []]. reflexivity.
  - reflexivity.
  - reflexivity.
  - reflexivity.
Defined.

Lemma offset_truncated :
  @SetVertexAttributes OpenGL unit PaddedVertex [tt] [mkConfig "P" 0 false]
  = ([SetVertexAttribute 0 3 5126 false (-2147483636) (-2147483648);
      EnableVertexAttribute 0], Returned tt)
  /\ Type_.FieldByName PaddedVertex "P"
     = Some (Some (mkStructField "P" Vector3 2147483648))
  /\ -2147483648 <> 2147483648.
Proof. repeat split. discriminate. Qed.

(** A field promoted from an embedded struct.  [FieldByName] gives it with
    its offset within the embedded struct, and that offset is passed on:
    [P] of [struct { A float32; InnerP }] lies at byte 4 of the record and
    is bound at byte offset 0. *)
Lemma promoted_field_offset :
  Type_.FieldByName PromotingVertex "P"
  = Some (Some (mkStructField "P" Vector3 0))
  /\ ~ In (mkStructField "P" Vector3 0) (Type_.fields PromotingVertex)
  /\ Type_.FieldByName PromotingVertex "InnerP"
     = Some (Some (mkField "InnerP" InnerP 4 true))
  /\ @SetVertexAttributes OpenGL unit PromotingVertex [tt]
       [mkConfig "P" 0 false]
     = ([SetVertexAttribute 0 3 5126 false 16 0; EnableVertexAttribute 0],
        Returned tt).
Proof.
  repeat split.
  intros [H | [H | []]]; discriminate.
Qed.

(** A name promoted twice at one depth is found by no lookup. *)
Lemma ambiguous_field_unknown :
  Type_.FieldByName AmbiguousVertex "Y" = Some None
  /\ @SetVertexAttributes OpenGL unit AmbiguousVertex [tt]
       [mkConfig "Y" 0 false]
     = ([], Panicked (NoSuchField AmbiguousVertex "Y")).
Proof. split; reflexivity. Qed.

Lemma nested_aggregate_rejected_witness :
  @SetVertexAttributes OpenGL unit EmptyVertex [tt]
    ([mkConfig "A" 0 false]
       ++ mkConfig "E" 1 false :: [mkConfig "A" 2 false])%list
  = ([SetVertexAttribute 0 1 5126 false 8 0; EnableVertexAttribute 0],
     Panicked (ChildStructEmpty EmptyChild "E"))
  /\ @SetVertexAttributes OpenGL unit MixedVertex [tt]
       ([] ++ mkConfig "P" 0 false :: [])%list
     = ([], Panicked (ChildStructNotPrimitive "P" int64T))
  /\ @SetVertexAttributes OpenGL unit HeteroVertex [tt]
       ([] ++ mkConfig "P" 0 false :: [mkConfig "P" 1 false])%list
     = ([], Panicked (ChildStructNotSameType "P" HeteroChild)).
Proof.
  split; [| split].
  - apply (proj1 (@nested_aggregate_rejected OpenGL unit EmptyVertex [tt]
                    [mkConfig "A" 0 false] [mkConfig "A" 2 false]
                    (mkConfig "E" 1 false) _
                    (mkStructField "E" EmptyChild 4)
                    ltac:(discriminate) eq_refl eq_refl eq_refl) "" 0%N).
    reflexivity.
  - apply (proj1 (proj2 (@nested_aggregate_rejected OpenGL unit MixedVertex
                           [tt] [] [] (mkConfig "P" 0 false) _
                           (mkStructField "P" MixedChild 0)
                           ltac:(discriminate) eq_refl eq_refl eq_refl))
             "" (mkStructField "X" int64T 0) [mkStructField "Y" float32T 8]
             16%N); reflexivity.
  - apply (proj2 (proj2 (@nested_aggregate_rejected OpenGL unit HeteroVertex
                           [tt] [] [mkConfig "P" 1 false]
                           (mkConfig "P" 0 false) _
                           (mkStructField "P" HeteroChild 0)
                           ltac:(discriminate) eq_refl eq_refl eq_refl))
             "" (mkStructField "X" float32T 0) [mkStructField "Y" uint8T 4]
             8%N (mkStructField "Y" uint8T 4));
      try reflexivity.
    + simpl. tauto.
    + discriminate.
Defined.

Lemma first_member_not_primitive :
  @SetVertexAttributes OpenGL unit MixedVertex [tt] [mkConfig "P" 0 false]
  = ([], Panicked (ChildStructNotPrimitive "P" int64T))
  /\ @SetVertexAttributes OpenGL unit MixedVertex [tt] [mkConfig "P" 0 false]
     <> ([], Panicked (ChildStructNotSameType "P" MixedChild)).
Proof. split; [reflexivity | discriminate]. Qed.

Lemma member_types_compared_by_identity_witness :
  Type_.Kind MyFloat = Type_.Kind float32T
  /\ @SetVertexAttributes OpenGL unit NamedVertex [tt]
       ([] ++ mkConfig "P" 0 false :: [])%list
     = ([], Panicked (ChildStructNotSameType "P" NamedChild)).
Proof.
  split; [reflexivity |].
  apply (@member_types_compared_by_identity OpenGL unit NamedVertex [tt]
           [] [] (mkConfig "P" 0 false) _ (mkStructField "P" NamedChild 0)
           "" (mkStructField "X" float32T 0) (mkStructField "Y" MyFloat 4)
           [mkStructField "Y" MyFloat 4] 8%N); try reflexivity.
  - discriminate.
  - intros m' [<- | []]. reflexivity.
  - simpl. tauto.
  - discriminate.
Defined.

Lemma scalar_field_binding_witness :
  @SetVertexAttributes OpenGL unit NamedScalarVertex [tt]
    ([mkConfig "Id" 1 true] ++ [mkConfig "Weight" 0 false])%list
  = (([SetVertexAttribute 1 1 5121 true 8 4; EnableVertexAttribute 1]
        ++ [SetVertexAttribute 0 1 5126 false 8 0;
            EnableVertexAttribute 0])%list,
     Returned tt).
Proof.
  apply (@scalar_field_binding OpenGL unit NamedScalarVertex [tt]
           [mkConfig "Id" 1 true] (mkConfig "Weight" 0 false) _
           (mkStructField "Weight" MyFloat 0) 5126).
  - discriminate.
  - reflexivity.
  - reflexivity.
  - reflexivity.
  - reflexivity.
  - reflexivity.
Defined.

Lemma array_field_binding_witness :
  @SetVertexAttributes OpenGL unit ArrayFieldsVertex [tt]
    ([mkConfig "Pos" 0 false] ++ [mkConfig "Color" 1 true])%list
  = (([SetVertexAttribute 0 3 5126 false 48 0; EnableVertexAttribute 0]
        ++ [SetVertexAttribute 1 4 5121 true 48 12;
            EnableVertexAttribute 1])%list,
     Returned tt).
Proof.
  apply (@array_field_binding OpenGL unit ArrayFieldsVertex [tt]
           [mkConfig "Pos" 0 false] (mkConfig "Color" 1 true) _
           (mkStructField "Color" (ArrayOf "" 4 uint8T 4) 12)
           "" 4%N uint8T 4%N 5121).
  - discriminate.
  - reflexivity.
  - reflexivity.
  - reflexivity.
  - reflexivity.
  - reflexivity.
  - reflexivity.
  - reflexivity.
Defined.

Lemma array_field_rejected_witness :
  @SetVertexAttributes OpenGL unit ArrayFieldsVertex [tt]
    ([mkConfig "Pos" 0 false]
       ++ mkConfig "Ids" 2 false :: [mkConfig "Color" 1 true])%list
  = ([SetVertexAttribute 0 3 5126 false 48 0; EnableVertexAttribute 0],
     Panicked (FieldArrayNotPrimitive reflect.Int "Ids")).
Proof.
  apply (@array_field_rejected OpenGL unit ArrayFieldsVertex [tt]
           [mkConfig "Pos" 0 false] [mkConfig "Color" 1 true]
           (mkConfig "Ids" 2 false) _
           (mkStructField "Ids" (ArrayOf "" 4 intT 32) 16)
           "" 4%N intT 32%N).
  - discriminate.
  - reflexivity.
  - reflexivity.
  - reflexivity.
  - reflexivity.
  - reflexivity.
Defined.

Lemma record_refused_before_bindings_witness :
  @SetVertexAttributes OpenGL unit float32T [tt] [mkConfig "X" 0 false]
  = ([], Panicked UnsupportedVertexType)
  /\ @SetVertexAttributes OpenGL unit IntPair [tt] []
     = ([], Panicked (ArrayBackingNotPrimitive intT)).
Proof.
  split.
  - apply (proj1 (@record_refused_before_bindings OpenGL unit float32T [tt]
                    [mkConfig "X" 0 false] ltac:(discriminate)));
      discriminate.
  - apply (proj2 (@record_refused_before_bindings OpenGL unit IntPair [tt]
                    [] ltac:(discriminate)) "" 2%N intT 16%N);
      reflexivity.
Defined.

Lemma struct_backed_run_app_witness :
  @SetVertexAttributes OpenGL unit TriangleVertex [tt]
    ([mkConfig "Pos" 0 false]
       ++ [mkConfig "Nope" 1 false; mkConfig "Color" 3 false])%list
  = bind (@SetVertexAttributes OpenGL unit TriangleVertex [tt]
            [mkConfig "Pos" 0 false])
      (fun _ => @SetVertexAttributes OpenGL unit TriangleVertex [tt]
                  [mkConfig "Nope" 1 false; mkConfig "Color" 3 false]).
Proof.
  apply (@struct_backed_run_app OpenGL unit TriangleVertex [tt]).
  - discriminate.
  - reflexivity.
Defined.

Lemma struct_backed_returns_iff_entries_witness :
  snd (@SetVertexAttributes OpenGL unit ScalarVertex [tt]
         [mkConfig "A" 0 false; mkConfig "B" 1 true]) = Returned tt
  <-> Forall (fun a => snd (@SetVertexAttributes OpenGL unit ScalarVertex
                              [tt] [a]) = Returned tt)
        [mkConfig "A" 0 false; mkConfig "B" 1 true].
Proof.
  apply (@struct_backed_returns_iff_entries OpenGL unit ScalarVertex [tt]).
  - discriminate.
  - reflexivity.
Defined.

Lemma call_from_binding_witness :
  exists a,
    In a triangleVertexAttributesConfig
    /\ indexOf (SetVertexAttribute 3 4 5126 false 36 20) = Attribute a
    /\ (forall n,
           normalizedOf (SetVertexAttribute 3 4 5126 false 36 20) = Some n ->
           n = Normalized a).
Proof.
  apply (@call_from_binding OpenGL unit TriangleVertex [tt]).
  simpl. tauto.
Defined.

Lemma descriptor_type_supported_witness :
  exists k, @glType OpenGL k = (5126, true).
Proof.
  apply (@descriptor_type_supported OpenGL unit TriangleVertex [tt]
           triangleVertexAttributesConfig
           (SetVertexAttribute 3 4 5126 false 36 20) 5126).
  - simpl. tauto.
  - reflexivity.
Defined.

Lemma array_backed_ignores_field_names_witness :
  @SetVertexAttributes OpenGL unit Float2 [tt]
    [mkConfig "Pos" 0 false; mkConfig "Tex" 1 true]
  = @SetVertexAttributes OpenGL unit Float2 [tt]
      [mkConfig "" 0 false; mkConfig "Nope" 1 true].
Proof.
  apply (@array_backed_ignores_field_names OpenGL unit Float2 [tt]);
    reflexivity.
Defined.

Lemma struct_backed_permutation_witness :
  exists calls',
    @SetVertexAttributes OpenGL unit TriangleVertex [tt]
      [mkConfig "Tex" 1 false; mkConfig "Pos" 0 false]
    = (calls', Returned tt)
    /\ Permutation
         [SetVertexAttribute 0 3 5126 false 36 0; EnableVertexAttribute 0;
          SetVertexAttribute 1 2 5126 false 36 12; EnableVertexAttribute 1]
         calls'.
Proof.
  apply (@struct_backed_permutation OpenGL unit TriangleVertex [tt]
           [mkConfig "Pos" 0 false; mkConfig "Tex" 1 false]).
  - discriminate.
  - reflexivity.
  - apply perm_swap.
  - reflexivity.
Defined.

Lemma no_reflect_panic_witness :
  wellKinded EmptyVertex = true
  /\ snd (@SetVertexAttributes OpenGL unit EmptyVertex [tt]
            [mkConfig "A" 0 false; mkConfig "E" 1 false])
     <> Panicked ReflectPanic.
Proof.
  split; [reflexivity |].
  apply (@no_reflect_panic OpenGL unit EmptyVertex [tt]).
  reflexivity.
Defined.

End Runs.
